(** * The RunPod video-enhancement handler ([handler.py])

    A shallow embedding of the serverless handler: download, Real-ESRGAN
    upscale, optional GFPGAN face restoration, optional ffmpeg audio
    enhancement, upload.  Python code becomes functions in a state-and-exception
    monad; the external collaborators (HTTP, subprocesses, OpenCV codecs, the
    GFPGAN restorer, the clock) are the fields of a [World] record that fixes
    how the environment answers each call.

    The state holds what the claims about the handler speak of: the
    directories and files on disk, the OpenCV objects not yet released, and a
    trace of the calls made to the outside.  Console output (the [print]
    calls) is left out; creating and removing the temporary directory are
    taken to succeed. *)

From Stdlib Require Import ZArith QArith String Ascii List.
From Stdlib.Strings Require Import Byte.
From stdpp Require Import base option list strings gmap fin_maps fin_sets pretty.

Local Open Scope string_scope.
Local Open Scope Z_scope.
Local Open Scope list_scope.

(** ** Python values *)

(** The JSON scalars a job input can carry. *)
Inductive pyval :=
| PNone
| PBool (b : bool)
| PInt (z : Z)
| PStr (s : string).

#[global] Instance pyval_eq_dec : EqDecision pyval.
Proof. solve_decision. Defined.

(** Truth value testing, as used by [if x:] and [not x]. *)
Definition truthy (v : pyval) : bool :=
  match v with
  | PNone => false
  | PBool b => b
  | PInt z => negb (z =? 0)
  | PStr s => negb (String.eqb s "")
  end.

(** [str(v)]. *)
Definition py_str (v : pyval) : string :=
  match v with
  | PNone => "None"
  | PBool true => "True"
  | PBool false => "False"
  | PInt z => pretty z
  | PStr s => s
  end.

(** A job is a dict; the entries of interest are JSON objects of scalars. *)
Inductive jobval :=
| JScalar (v : pyval)
| JObject (d : gmap string pyval).

(** [d.get(key, default)]. *)
Definition dict_get (d : gmap string pyval) (key : string) (dflt : pyval) : pyval :=
  default dflt (d !! key).

(** Values of the result dict. *)
Inductive resval :=
| RStr (s : string)
| RFloat (q : Q)
| RVal (v : pyval).

(** A dict literal, in insertion order. *)
Definition pyresult := list (string * resval).

(** ** Exceptions *)

Inductive exn :=
| RuntimeError (msg : string)
| TimeoutExpired (cmd : list string) (timeout : Z)
| TypeError
| AttributeError
| KeyError (key : string)
| FileNotFoundError (path : string)
| External (class msg : string).   (* raised inside requests, gfpgan, ... *)

Inductive pyres (A : Type) :=
| Ret (a : A)
| Raise (e : exn).
Arguments Ret {A} a.
Arguments Raise {A} e.

(** ** Media and files *)

(** A decoded frame: its pixel data. *)
Definition frame := list Z.

(** What OpenCV sees of a video container.  The frame rate is a float that
    the code only passes along, so its exact value is kept as a rational;
    width and height are whole numbers of pixels. *)
Record video := Video {
  v_fps : Q;
  v_width : Z;
  v_height : Z;
  v_frames : list frame
}.

Inductive file :=
| Bytes (b : list byte)     (* opaque payload *)
| Mp4v (v : video).         (* container written by [cv2.VideoWriter] *)

(** Native resources held by OpenCV objects. *)
Inductive resource :=
| Decoder (path : string)
| Encoder (path : string).

#[global] Instance resource_eq_dec : EqDecision resource.
Proof. solve_decision. Defined.

(** ** Pipeline stages and the event trace *)

Inductive stage := Fetch | Upscale | FaceRestore | AudioEnhance | Publish.

#[global] Instance stage_eq_dec : EqDecision stage.
Proof. solve_decision. Defined.

Inductive event :=
| EvStage (st : stage)                         (* ghost: a stage function is entered *)
| EvMkdtemp (d : string)
| EvRmtree (d : string)
| EvHttpGet (url : string)
| EvHttpPut (url : pyval) (path : string)
| EvSubprocess (cmd : list string) (timeout : Z)
| EvGfpganInit
| EvEnhance (i : nat) (f : frame).

(** ** Program state *)

Record state := State {
  st_dirs : gset string;
  st_files : gmap string file;
  st_open : list resource;
  st_trace : list event
}.

(** ** The environment *)

Inductive completed :=
| Exited (returncode : Z) (stderr : string)
| TimedOut                                   (* still running at the timeout *)
| NotStarted (e : exn).                      (* the executable could not be run *)

Record World := {
  (* tempfile.mkdtemp() *)
  w_mkdtemp : string;
  (* pathlib.Path(s).suffix *)
  w_path_suffix : string -> string;
  (* requests.get + raise_for_status: the chunks delivered by iter_content and
     written to the file, and the error, if any, that interrupts that loop *)
  w_http_get : string -> pyres (list (list byte) * option exn);
  (* open(path, 'wb'): the OSError, if any, that it raises (a name that is too
     long, an empty path, a directory that is not there) *)
  w_open_error : string -> option exn;
  (* subprocess.run: how the process ends, and the files it writes *)
  w_subprocess : list string -> completed * list (string * file);
  (* importing gfpgan and constructing GFPGANer *)
  w_gfpgan_init : option exn;
  (* the demuxer behind cv2.VideoCapture *)
  w_demux : list byte -> option video;
  (* restorer.enhance(frame, paste_back=True)[2], at the i-th call *)
  w_enhance : nat -> frame -> pyres frame;
  (* requests.put + raise_for_status *)
  w_http_put : pyval -> file -> option exn;
  (* the frame rate the mp4v container ends up with when the encoder is asked
     for a given rate: the muxer stores a rate of its own choosing near it *)
  w_mux_fps : Q -> Q;
  (* encoded size of a written container *)
  w_mp4v_size : video -> N;
  (* round(time.time() - start, 1) *)
  w_elapsed : Q
}.

(** ** The state-and-exception monad *)

Definition M (A : Type) : Type := state -> pyres A * state.

#[global] Instance M_ret : MRet M := fun A a s => (Ret a, s).

#[global] Instance M_bind : MBind M := fun A B k m s =>
  match m s with
  | (Ret a, s') => k a s'
  | (Raise e, s') => (Raise e, s')
  end.

Definition raise {A} (e : exn) : M A := fun s => (Raise e, s).

Definition log (ev : event) : M unit := fun s =>
  (Ret tt, State (st_dirs s) (st_files s) (st_open s) (st_trace s ++ [ev])).

Definition set_files (fs : gmap string file) (s : state) : state :=
  State (st_dirs s) fs (st_open s) (st_trace s).

Definition set_open (o : list resource) (s : state) : state :=
  State (st_dirs s) (st_files s) o (st_trace s).

Definition write_file (path : string) (f : file) : M unit := fun s =>
  (Ret tt, set_files (<[path := f]> (st_files s)) s).

(** [open(path, 'wb')]: raises when the path cannot be opened for writing,
    and otherwise leaves an empty file there. *)
Definition open_wb (w : World) (path : string) : M unit := fun s =>
  match w_open_error w path with
  | Some e => (Raise e, s)
  | None => (Ret tt, set_files (<[path := Bytes []]> (st_files s)) s)
  end.

(** ** Paths *)

Definition starts_with_sep (p : string) : bool :=
  match p with
  | String c _ => Ascii.eqb c "/"
  | EmptyString => false
  end.

Fixpoint ends_with_sep (p : string) : bool :=
  match p with
  | EmptyString => false
  | String c EmptyString => Ascii.eqb c "/"
  | String _ rest => ends_with_sep rest
  end.

(** [os.path.join(a, b)] on POSIX. *)
Definition os_path_join (a b : string) : string :=
  if starts_with_sep b then b
  else if String.eqb a "" || ends_with_sep a then a +:+ b
  else a +:+ "/" +:+ b.

(** [p] lies inside directory [d]. *)
Definition is_under (d p : string) : bool := String.prefix (os_path_join d "") p.

(** [shutil.rmtree(d)]: the directory, its subdirectories and its files go. *)
Definition rmtree (d : string) (s : state) : state :=
  State (filter (fun p => p <> d /\ is_under d p = false) (st_dirs s))
        (filter (fun kv => is_under d kv.1 = false) (st_files s))
        (st_open s)
        (st_trace s ++ [EvRmtree d]).

(** [tempfile.mkdtemp()]: the state once the workspace exists. *)
Definition acquire (w : World) (s : state) : state :=
  State ({[w_mkdtemp w]} ∪ st_dirs s) (st_files s) (st_open s)
        (st_trace s ++ [EvMkdtemp (w_mkdtemp w)]).

(** [with tempfile.TemporaryDirectory() as tmpdir: body]: the directory is
    removed when the block is left, by a return or by an exception. *)
Definition TemporaryDirectory {A} (w : World) (body : string -> M A) : M A := fun s =>
  let tmpdir := w_mkdtemp w in
  let '(r, s2) := body tmpdir (acquire w s) in
  (r, rmtree tmpdir s2).

(** ** [download_file] *)

(** Lines 16-23: stream the response body into [dest]. *)
Definition download_file (w : World) (url dest : string) : M string :=
  log (EvStage Fetch);;
  log (EvHttpGet url);;
  match w_http_get w url with
  | Raise e => raise e                         (* get / raise_for_status *)
  | Ret (chunks, interrupted) =>
      open_wb w dest;;                            (* open(dest, 'wb') *)
      write_file dest (Bytes (concat chunks));;   (* f.write(chunk), chunk by chunk *)
      match interrupted with
      | Some e => raise e
      | None => mret dest
      end
  end.

(** ** [restore_faces_video] *)

Inductive cap_prop := CAP_PROP_FPS | CAP_PROP_FRAME_WIDTH | CAP_PROP_FRAME_HEIGHT.

(** What a file at [path] decodes to, if it is there and is a video. *)
Definition decode (w : World) (s : state) (path : string) : option video :=
  match st_files s !! path with
  | Some (Mp4v v) => Some v
  | Some (Bytes b) => w_demux w b
  | None => None
  end.

(** [cv2.VideoCapture(path)]: [None] when the file cannot be opened as a video. *)
Definition VideoCapture (w : World) (path : string) : M (option video) := fun s =>
  let cap := decode w s path in
  (Ret cap,
   match cap with
   | Some _ => set_open (Decoder path :: st_open s) s
   | None => s
   end).

(** [cap.get(prop)]: a float; 0.0 on a capture that is not opened. *)
Definition cap_get (cap : option video) (p : cap_prop) : Q :=
  match cap with
  | None => 0%Q
  | Some v =>
      match p with
      | CAP_PROP_FPS => v_fps v
      | CAP_PROP_FRAME_WIDTH => inject_Z (v_width v)
      | CAP_PROP_FRAME_HEIGHT => inject_Z (v_height v)
      end
  end.

(** [int(x)] on a float: truncation toward zero. *)
Definition py_int (x : Q) : Z := Z.quot (Qnum x) (Z.pos (Qden x)).

(** The frames [cap.read()] will deliver before it answers [ret = False]. *)
Definition cap_frames (cap : option video) : list frame :=
  match cap with
  | None => []
  | Some v => v_frames v
  end.

(** [cv2.VideoWriter(path, fourcc('mp4v'), fps, (w, h))].  The container gets
    the frame size asked for and the frame rate the muxer makes of the rate
    asked for.  The encoder is taken to open: in the handler the path is a
    fresh name inside the workspace and the size is that of the decoded
    input.  The file stands for what has been handed to the encoder so far;
    whether a container that was never released can be read back is not
    modelled. *)
Definition VideoWriter (w : World) (path : string) (fps : Q) (wd h : Z) : M string :=
  fun s =>
  (Ret path,
   set_open (Encoder path :: st_open s)
            (set_files (<[path := Mp4v (Video (w_mux_fps w fps) wd h [])]> (st_files s)) s)).

(** [out.write(frame)]. *)
Definition writer_write (out : string) (f : frame) : M unit := fun s =>
  (Ret tt,
   match st_files s !! out with
   | Some (Mp4v v) =>
       set_files (<[out := Mp4v (Video (v_fps v) (v_width v) (v_height v)
                                       (v_frames v ++ [f]))]> (st_files s)) s
   | _ => s
   end).

Fixpoint remove_first (r : resource) (l : list resource) : list resource :=
  match l with
  | [] => []
  | x :: l' => if decide (x = r) then l' else x :: remove_first r l'
  end.

(** [cap.release()] / [out.release()]. *)
Definition release (r : resource) : M unit := fun s =>
  (Ret tt, set_open (remove_first r (st_open s)) s).

(** [cap.release()]: a capture that never opened holds nothing. *)
Definition cap_release (cap : option video) (path : string) : M unit :=
  match cap with
  | Some _ => release (Decoder path)
  | None => mret tt
  end.

(** [restorer.enhance(frame, paste_back=True)]. *)
Definition enhance (w : World) (i : nat) (f : frame) : M frame :=
  log (EvEnhance i f);;
  match w_enhance w i f with
  | Ret restored => mret restored
  | Raise e => raise e
  end.

(** The [while True] loop of lines 47-57; [pending] is what is left of the
    stream, so [cap.read()] answers [ret = False] exactly when it is empty.
    [frame_count] is also the number of inference calls made so far. *)
Fixpoint frame_loop (w : World) (out : string) (pending : list frame)
    (frame_count : nat) : M nat :=
  match pending with
  | [] => mret frame_count                            (* if not ret: break *)
  | frame :: rest =>
      restored ← enhance w frame_count frame;
      writer_write out restored;;
      frame_loop w out rest (S frame_count)
  end.

(** Lines 25-62.  The two [release()] calls are ordinary statements after
    the loop, as in the source: there is no [try]/[finally] around it. *)
Definition restore_faces_video (w : World) (input_path output_path : string) : M string :=
  log (EvStage FaceRestore);;
  log EvGfpganInit;;
  match w_gfpgan_init w with Some e => raise e | None => mret tt end;;
  cap ← VideoCapture w input_path;
  let fps := cap_get cap CAP_PROP_FPS in
  let wd := py_int (cap_get cap CAP_PROP_FRAME_WIDTH) in
  let h := py_int (cap_get cap CAP_PROP_FRAME_HEIGHT) in
  out ← VideoWriter w output_path fps wd h;
  frame_count ← frame_loop w out (cap_frames cap) 0;
  cap_release cap input_path;;
  release (Encoder out);;
  mret output_path.

(** ** Subprocesses *)

(** [subprocess.run(cmd, capture_output=True, text=True, timeout=t)]. *)
Definition subprocess_run (w : World) (cmd : list string) (timeout : Z)
  : M (Z * string) := fun s =>
  let '(c, writes) := w_subprocess w cmd in
  let s1 := State (st_dirs s)
                  (foldl (fun fs pf => <[pf.1 := pf.2]> fs) (st_files s) writes)
                  (st_open s)
                  (st_trace s ++ [EvSubprocess cmd timeout]) in
  match c with
  | Exited rc err => (Ret (rc, err), s1)
  | TimedOut => (Raise (TimeoutExpired cmd timeout), s1)
  | NotStarted e => (Raise e, s1)
  end.

Definition audio_cmd (input_path output_path : string) : list string :=
  ["ffmpeg"; "-y"; "-i"; input_path;
   "-af"; "highpass=f=80,lowpass=f=12000,afftdn=nf=-20,loudnorm=I=-16:TP=-1.5:LRA=11";
   "-c:v"; "copy";
   output_path].

(** Lines 64-79. *)
Definition enhance_audio (w : World) (input_path output_path : string) : M string :=
  log (EvStage AudioEnhance);;
  let cmd := audio_cmd input_path output_path in
  result ← subprocess_run w cmd 3600;
  if negb (result.1 =? 0) then
    mret input_path                 (* Don't fail, just skip audio enhancement *)
  else mret output_path.

Definition REALESRGAN_MODEL : string := "realesr-general-x4v3".

Definition realesrgan_cmd (input_path output_path model scale : string) : list string :=
  ["realesrgan-ncnn-vulkan";
   "-i"; input_path;
   "-o"; output_path;
   "-n"; model;
   "-s"; scale;
   "-f"; "mp4"].

(** Lines 81-94. *)
Definition run_realesrgan (w : World) (input_path output_path : string)
    (scale model : pyval) : M string :=
  log (EvStage Upscale);;
  match model with
  | PStr m =>
      let cmd := realesrgan_cmd input_path output_path m (py_str scale) in
      result ← subprocess_run w cmd 7200;
      if negb (result.1 =? 0) then
        raise (RuntimeError ("Real-ESRGAN failed: " +:+ result.2))
      else mret output_path
  | _ => raise TypeError              (* ' '.join(cmd) on a non-str item *)
  end.

(** ** [upload_result] *)

(** [s.split(sep)] for a one-character separator. *)
Fixpoint py_split (sep : ascii) (s : string) : list string :=
  match s with
  | EmptyString => [EmptyString]
  | String c rest =>
      if Ascii.eqb c sep then EmptyString :: py_split sep rest
      else match py_split sep rest with
           | piece :: pieces => String c piece :: pieces
           | [] => [String c EmptyString]
           end
  end.

(** [open(path, 'rb')]. *)
Definition open_rb (path : string) : M file := fun s =>
  match st_files s !! path with
  | Some f => (Ret f, s)
  | None => (Raise (FileNotFoundError path), s)
  end.

(** [os.path.getsize(path)]. *)
Definition getsize (w : World) (path : string) : M N := fun s =>
  match st_files s !! path with
  | Some (Bytes b) => (Ret (N.of_nat (length b)), s)
  | Some (Mp4v v) => (Ret (w_mp4v_size w v), s)
  | None => (Raise (FileNotFoundError path), s)
  end.

(** [requests.put(url, data=f, timeout=600); resp.raise_for_status()]. *)
Definition http_put (w : World) (url : pyval) (path : string) (f : file) : M unit :=
  log (EvHttpPut url path);;
  match w_http_put w url f with
  | Some e => raise e
  | None => mret tt
  end.

(** Lines 96-106. *)
Definition upload_result (w : World) (file_path : string) (upload_url : pyval)
  : M string :=
  log (EvStage Publish);;
  if truthy upload_url then
    f ← open_rb file_path;
    http_put w upload_url file_path f;;
    match upload_url with
    | PStr u => mret (hd EmptyString (py_split "?" u))   (* URL without query params *)
    | _ => raise AttributeError
    end
  else
    size ← getsize w file_path;
    mret ("file://" +:+ file_path +:+ " (" +:+ pretty size +:+ " bytes)").

(** ** [handler] *)

(** [Path(v)]: only a str is path-like among the job values. *)
Definition fspath (v : pyval) : M string :=
  match v with
  | PStr u => mret u
  | _ => raise TypeError
  end.

Definition error_result (msg : string) : pyresult := [("error", RStr msg)].

Definition success_result (w : World) (result_url : string)
    (scale face_restore audio_enhance : pyval) : pyresult :=
  [("video_url", RStr result_url);
   ("duration_secs", RFloat (w_elapsed w));
   ("scale", RVal scale);
   ("face_restore", RVal face_restore);
   ("audio_enhance", RVal audio_enhance)].

(** Lines 108-164.  There is no [try]/[except]: an exception raised by a
    stage leaves the [with] block, and the handler, as it is. *)
Definition handler (w : World) (job : gmap string jobval) : M pyresult :=
  job_input ← match job !! "input" with
              | Some (JObject d) => mret d
              | Some (JScalar _) => raise AttributeError
              | None => raise (KeyError "input")
              end;
  let video_url := dict_get job_input "video_url" PNone in
  let scale := dict_get job_input "scale" (PInt 4) in
  let model := dict_get job_input "model" (PStr REALESRGAN_MODEL) in
  let face_restore := dict_get job_input "face_restore" (PBool true) in
  let audio_enhance := dict_get job_input "audio_enhance" (PBool true) in
  let upload_url := dict_get job_input "upload_url" (PStr "") in
  if negb (truthy video_url) then
    mret (error_result "video_url required")
  else
    TemporaryDirectory w (fun tmpdir =>
      url ← fspath video_url;
      let input_ext :=
        let sfx := w_path_suffix w url in
        if String.eqb sfx "" then ".mp4" else sfx in
      let input_path := os_path_join tmpdir ("input" +:+ input_ext) in
      download_file w url input_path;;
      let upscaled_path := os_path_join tmpdir "upscaled.mp4" in
      run_realesrgan w input_path upscaled_path scale model;;
      let current := upscaled_path in
      current ← (if truthy face_restore then
                   let restored_path := os_path_join tmpdir "restored.mp4" in
                   restore_faces_video w current restored_path;;
                   mret restored_path
                 else mret current);
      current ← (if truthy audio_enhance then
                   let audio_path := os_path_join tmpdir "audio_enhanced.mp4" in
                   enhance_audio w current audio_path
                 else mret current);
      result_url ← upload_result w current upload_url;
      mret (success_result w result_url scale face_restore audio_enhance)).

(** * Specification vocabulary *)

(** ** The frame loop

    [restored_prefix] and [loop_events] say, as plain list functions, which
    frames the loop hands to the encoder and which inference calls it makes. *)

Fixpoint restored_prefix (w : World) (i : nat) (pending : list frame)
  : list frame * option exn :=
  match pending with
  | [] => ([], None)
  | f :: rest =>
      match w_enhance w i f with
      | Ret g => (g :: (restored_prefix w (S i) rest).1,
                  (restored_prefix w (S i) rest).2)
      | Raise e => ([], Some e)
      end
  end.

Fixpoint loop_events (w : World) (i : nat) (pending : list frame) : list event :=
  match pending with
  | [] => []
  | f :: rest =>
      EvEnhance i f ::
      match w_enhance w i f with
      | Ret _ => loop_events w (S i) rest
      | Raise _ => []
      end
  end.

Definition loop_outcome (w : World) (i : nat) (pending : list frame) : pyres nat :=
  match (restored_prefix w i pending).2 with
  | None => Ret (i + length pending)%nat
  | Some e => Raise e
  end.

(** ** Face restoration as a function of the input video *)

Definition restore_outcome (w : World) (cap : option video) (output_path : string)
  : pyres string :=
  match loop_outcome w 0 (cap_frames cap) with
  | Ret _ => Ret output_path
  | Raise e => Raise e
  end.

Definition restore_output (w : World) (cap : option video) : video :=
  Video (w_mux_fps w (cap_get cap CAP_PROP_FPS))
        (py_int (cap_get cap CAP_PROP_FRAME_WIDTH))
        (py_int (cap_get cap CAP_PROP_FRAME_HEIGHT))
        (restored_prefix w 0 (cap_frames cap)).1.

Definition restore_open (w : World) (cap : option video)
    (input_path output_path : string) (held : list resource) : list resource :=
  match loop_outcome w 0 (cap_frames cap) with
  | Ret _ => held
  | Raise _ =>
      Encoder output_path ::
      match cap with
      | Some _ => Decoder input_path :: held
      | None => held
      end
  end.

(** ** Traces *)

(** Calls that leave the process: everything except the ghost stage markers and
    the workspace bookkeeping. *)
Definition is_io (e : event) : bool :=
  match e with
  | EvStage _ | EvMkdtemp _ | EvRmtree _ => false
  | _ => true
  end.

Definition io_only (evs : list event) : Prop := Forall (fun e => is_io e = true) evs.

(** The stages entered, in order. *)
Definition stages_of (t : list event) : list stage :=
  omap (fun e => match e with EvStage st => Some st | _ => None end) t.

(** The workspaces acquired, in order. *)
Definition workspaces_of (t : list event) : list string :=
  omap (fun e => match e with EvMkdtemp d => Some d | _ => None end) t.

(** The events a run added to the trace. *)
Definition new_events (s s' : state) : list event :=
  drop (length (st_trace s)) (st_trace s').

(** [m] announces stage [n] and then only talks to the outside world. *)
Definition enters {A} (n : stage) (m : M A) : Prop :=
  forall s, exists evs,
    st_trace (m s).2 = st_trace s ++ EvStage n :: evs /\ io_only evs.

Ltac io_events :=
  repeat first [ apply Forall_nil_2 | apply Forall_cons_2; [reflexivity|] ].

Ltac run_prims :=
  unfold mbind, M_bind, mret, M_ret, raise, log, write_file, open_wb, open_rb, getsize,
    http_put, subprocess_run, set_files, set_open;
  cbn [fst snd st_files st_dirs st_open st_trace].

(** ** The handler as a chain of stages

    Inside the workspace the handler threads the current artifact through its
    stages.  [pipeline] lists them as the source calls them; [run_chain] runs
    such a list; [handler_pipeline] says the handler is that run. *)

Fixpoint run_chain (l : list (stage * (string -> M string))) (current : string)
  : M string :=
  match l with
  | [] => mret current
  | (_, f) :: l' => c ← f current; run_chain l' c
  end.

Definition job_scale (ji : gmap string pyval) : pyval := dict_get ji "scale" (PInt 4).
Definition job_model (ji : gmap string pyval) : pyval :=
  dict_get ji "model" (PStr REALESRGAN_MODEL).
Definition job_face_restore (ji : gmap string pyval) : pyval :=
  dict_get ji "face_restore" (PBool true).
Definition job_audio_enhance (ji : gmap string pyval) : pyval :=
  dict_get ji "audio_enhance" (PBool true).
Definition job_upload_url (ji : gmap string pyval) : pyval :=
  dict_get ji "upload_url" (PStr "").

Definition input_path_of (w : World) (tmpdir url : string) : string :=
  os_path_join tmpdir
    ("input" +:+ (if String.eqb (w_path_suffix w url) "" then ".mp4"
                  else w_path_suffix w url)).
Definition upscaled_path_of (tmpdir : string) : string :=
  os_path_join tmpdir "upscaled.mp4".
Definition restored_path_of (tmpdir : string) : string :=
  os_path_join tmpdir "restored.mp4".
Definition audio_path_of (tmpdir : string) : string :=
  os_path_join tmpdir "audio_enhanced.mp4".

Definition stage_fetch (w : World) (tmpdir url : string) : stage * (string -> M string) :=
  (Fetch, fun _ => download_file w url (input_path_of w tmpdir url)).

Definition stage_upscale (w : World) (ji : gmap string pyval) (tmpdir url : string)
  : stage * (string -> M string) :=
  (Upscale, fun _ =>
     run_realesrgan w (input_path_of w tmpdir url) (upscaled_path_of tmpdir)
       (job_scale ji) (job_model ji);;
     mret (upscaled_path_of tmpdir)).

Definition stage_face (w : World) (tmpdir : string) : stage * (string -> M string) :=
  (FaceRestore, fun current =>
     restore_faces_video w current (restored_path_of tmpdir);;
     mret (restored_path_of tmpdir)).

Definition stage_audio (w : World) (tmpdir : string) : stage * (string -> M string) :=
  (AudioEnhance, fun current => enhance_audio w current (audio_path_of tmpdir)).

Definition stage_publish (w : World) (ji : gmap string pyval)
  : stage * (string -> M string) :=
  (Publish, fun current => upload_result w current (job_upload_url ji)).

(** The stages that run before audio enhancement. *)
Definition before_audio (w : World) (ji : gmap string pyval) (tmpdir url : string)
  : list (stage * (string -> M string)) :=
  [stage_fetch w tmpdir url; stage_upscale w ji tmpdir url]
  ++ (if truthy (job_face_restore ji) then [stage_face w tmpdir] else []).

Definition pipeline (w : World) (ji : gmap string pyval) (tmpdir url : string)
  : list (stage * (string -> M string)) :=
  before_audio w ji tmpdir url
  ++ (if truthy (job_audio_enhance ji) then [stage_audio w tmpdir] else [])
  ++ [stage_publish w ji].

(** The job carries an input object whose [video_url] is a non-empty string. *)
Definition accepted (job : gmap string jobval) (ji : gmap string pyval) (url : string)
  : Prop :=
  job !! "input" = Some (JObject ji) /\ ji !! "video_url" = Some (PStr url) /\ url <> "".

Definition finish (w : World) (ji : gmap string pyval) (r : pyres string) : pyres pyresult :=
  match r with
  | Ret result_url =>
      Ret (success_result w result_url (job_scale ji) (job_face_restore ji)
             (job_audio_enhance ji))
  | Raise e => Raise e
  end.

Definition announced (l : list (stage * (string -> M string))) : Prop :=
  Forall (fun nf => forall c, enters nf.1 (nf.2 c)) l.

(** Whether the handler gets as far as acquiring a workspace. *)
Definition acquires (job : gmap string jobval) : bool :=
  match job !! "input" with
  | Some (JObject ji) => truthy (dict_get ji "video_url" PNone)
  | _ => false
  end.

(** Nothing of workspace [d] is left in state [s]. *)
Definition workspace_gone (d : string) (s : state) : Prop :=
  (d ∉ st_dirs s)
  /\ (forall p, is_under d p = true -> st_files s !! p = None)
  /\ (forall name, starts_with_sep name = false ->
        st_files s !! os_path_join d name = None).

(** ** Strings and sizes *)

(** Character [c] occurs in [s]. *)
Fixpoint has_char (c : ascii) (s : string) : bool :=
  match s with
  | EmptyString => false
  | String a rest => Ascii.eqb a c || has_char c rest
  end.

(** The size [os.path.getsize] reports for a file. *)
Definition file_size (w : World) (f : file) : N :=
  match f with
  | Bytes b => N.of_nat (length b)
  | Mp4v v => w_mp4v_size w v
  end.

(** * Example environments *)

Definition sample_video : video :=
  Video (30 # 1) 8 4 [[1; 2]; [3; 4]; [5; 6]].

(** An environment in which the network and the codecs behave; the two
    executables and the restorer are supplied by the caller. *)
Definition example_world (realesrgan ffmpeg : completed)
    (enh : nat -> frame -> pyres frame) : World := {|
  w_mkdtemp := "/tmp/tmpjob";
  w_path_suffix := fun _ => ".mp4";
  w_http_get := fun _ => Ret ([[Byte.x00; Byte.x01]; [Byte.x02]], None);
  w_open_error := fun _ => None;
  w_subprocess := fun cmd =>
    match cmd with
    | "realesrgan-ncnn-vulkan" :: _ :: _ :: _ :: o :: _ =>
        (realesrgan,
         match realesrgan with
         | Exited 0 _ => [(o, Mp4v sample_video)]
         | _ => []
         end)
    | "ffmpeg" :: _ =>
        (ffmpeg,
         match ffmpeg with
         | Exited 0 _ => [(List.last cmd "", Bytes [Byte.x00; Byte.x01; Byte.x02; Byte.x03])]
         | _ => []
         end)
    | _ => (Exited 127 "command not found", [])
    end;
  w_gfpgan_init := None;
  w_demux := fun _ => None;
  w_enhance := enh;
  w_http_put := fun _ _ => None;
  w_mux_fps := fun fps => fps;
  w_mp4v_size := fun v => (1000 * N.of_nat (length (v_frames v)))%N;
  w_elapsed := 12 # 10
|}.

Definition brighten (i : nat) (f : frame) : pyres frame := Ret (map Z.succ f).

Definition fails_at (k : nat) (i : nat) (f : frame) : pyres frame :=
  if Nat.eqb i k then Raise (External "RuntimeError" "CUDA out of memory")
  else Ret (map Z.succ f).

Definition world_ok : World := example_world (Exited 0 "") (Exited 0 "") brighten.
Definition world_upscale_fails : World :=
  example_world (Exited 1 "boom") (Exited 0 "") brighten.
Definition world_audio_fails : World :=
  example_world (Exited 0 "") (Exited 1 "no audio stream") brighten.
Definition world_audio_timeout : World :=
  example_world (Exited 0 "") TimedOut brighten.
Definition world_restorer_fails : World :=
  example_world (Exited 0 "") (Exited 0 "") (fails_at 1).

Definition empty_state : state := State ∅ ∅ [] [].

Definition state_with_video : state :=
  State ∅ {["/work/upscaled.mp4" := Mp4v sample_video]} [] [].

Definition input_default : gmap string pyval :=
  {["video_url" := PStr "https://x/test.mp4"]}.

Definition input_scale3 : gmap string pyval :=
  {["video_url" := PStr "https://x/test.mp4"; "scale" := PInt 3;
    "face_restore" := PBool false; "audio_enhance" := PBool false]}.

Definition input_upload : gmap string pyval :=
  {["video_url" := PStr "https://x/test.mp4";
    "upload_url" := PStr "https://bucket/out.mp4?X-Sig=abc?d"]}.

Definition job_of (ji : gmap string pyval) : gmap string jobval :=
  {["id" := JScalar (PStr "job-1"); "input" := JObject ji]}.

(** * Vocabulary for the remaining properties *)

(** The stages a job goes through when nothing fails. *)
Definition expected_stages (ji : gmap string pyval) : list stage :=
  [Fetch; Upscale]
  ++ (if truthy (job_face_restore ji) then [FaceRestore] else [])
  ++ (if truthy (job_audio_enhance ji) then [AudioEnhance] else [])
  ++ [Publish].

(** The optional fields of the job input and the values [handler] reads when
    they are absent (lines 125-129). *)
Definition field_defaults : list (string * pyval) :=
  [("scale", PInt 4);
   ("model", PStr REALESRGAN_MODEL);
   ("face_restore", PBool true);
   ("audio_enhance", PBool true);
   ("upload_url", PStr "")].

(** Number of bytes in a sequence of chunks. *)
Definition total_bytes (chunks : list (list byte)) : N :=
  N.of_nat (length (concat chunks)).

(** The artifact paths of a job, in the order the stages produce them. *)
Definition artifact_paths (w : World) (tmpdir url : string) : list string :=
  [input_path_of w tmpdir url; upscaled_path_of tmpdir;
   restored_path_of tmpdir; audio_path_of tmpdir].

(** The inference calls made on a stream when none of them fails. *)
Definition inference_calls (n : nat) (frames : list frame) : list event :=
  imap (fun i f => EvEnhance (n + i) f) frames.

(** Environments that differ from a given one in a single collaborator. *)
Definition with_http_get (g : string -> pyres (list (list byte) * option exn))
    (w : World) : World := {|
  w_mkdtemp := w_mkdtemp w;
  w_path_suffix := w_path_suffix w;
  w_http_get := g;
  w_open_error := w_open_error w;
  w_subprocess := w_subprocess w;
  w_gfpgan_init := w_gfpgan_init w;
  w_demux := w_demux w;
  w_enhance := w_enhance w;
  w_http_put := w_http_put w;
  w_mux_fps := w_mux_fps w;
  w_mp4v_size := w_mp4v_size w;
  w_elapsed := w_elapsed w
|}.

Definition with_gfpgan_init (i : option exn) (w : World) : World := {|
  w_mkdtemp := w_mkdtemp w;
  w_path_suffix := w_path_suffix w;
  w_http_get := w_http_get w;
  w_open_error := w_open_error w;
  w_subprocess := w_subprocess w;
  w_gfpgan_init := i;
  w_demux := w_demux w;
  w_enhance := w_enhance w;
  w_http_put := w_http_put w;
  w_mux_fps := w_mux_fps w;
  w_mp4v_size := w_mp4v_size w;
  w_elapsed := w_elapsed w
|}.


Definition with_open_error (o : string -> option exn) (w : World) : World := {|
  w_mkdtemp := w_mkdtemp w;
  w_path_suffix := w_path_suffix w;
  w_http_get := w_http_get w;
  w_open_error := o;
  w_subprocess := w_subprocess w;
  w_gfpgan_init := w_gfpgan_init w;
  w_demux := w_demux w;
  w_enhance := w_enhance w;
  w_http_put := w_http_put w;
  w_mux_fps := w_mux_fps w;
  w_mp4v_size := w_mp4v_size w;
  w_elapsed := w_elapsed w
|}.

(** A file system that refuses the empty path. *)
Definition world_no_empty_path : World :=
  with_open_error
    (fun path => if String.eqb path "" then Some (FileNotFoundError "") else None)
    world_ok.

(** The restorer returns an image for every frame of the stream. *)
Definition restorer_accepts (w : World) (frames : list frame) : Prop :=
  forall i f, frames !! i = Some f -> exists g, w_enhance w i f = Ret g.




Definition world_http_404 : World :=
  with_http_get (fun _ => Raise (External "HTTPError" "404 Client Error")) world_ok.

Definition world_stream_cut : World :=
  with_http_get
    (fun _ => Ret ([[Byte.x00; Byte.x01]],
                   Some (External "ChunkedEncodingError" "Connection broken")))
    world_ok.

Definition world_no_gfpgan : World :=
  with_gfpgan_init (Some (External "FileNotFoundError" "/models/GFPGANv1.4.pth")) world_ok.

Definition world_upscale_timeout : World :=
  example_world TimedOut (Exited 0 "") brighten.

Definition input_bad_model : gmap string pyval :=
  {["video_url" := PStr "https://x/test.mp4"; "model" := PInt 5]}.

Definition input_no_faces : gmap string pyval :=
  {["video_url" := PStr "https://x/test.mp4"; "face_restore" := PNone]}.

(** * Reasoning principles *)

(** ** The monad *)

Lemma bind_Ret {A B} (m : M A) (k : A -> M B) s a s' :
  m s = (Ret a, s') -> (m ≫= k) s = k a s'.
Proof. intros H. unfold mbind, M_bind. now rewrite H. Qed.

Lemma bind_Raise {A B} (m : M A) (k : A -> M B) s e s' :
  m s = (Raise e, s') -> (m ≫= k) s = (Raise e, s').
Proof. intros H. unfold mbind, M_bind. now rewrite H. Qed.

Lemma bind_assoc {A B C} (m : M A) (k : A -> M B) (k' : B -> M C) s :
  ((m ≫= k) ≫= k') s = (m ≫= (fun a => k a ≫= k')) s.
Proof. unfold mbind, M_bind. destruct (m s) as [[a|e] s']; reflexivity. Qed.

Lemma state_eta s : State (st_dirs s) (st_files s) (st_open s) (st_trace s) = s.
Proof. now destruct s. Qed.

(** ** The frame loop and the face-restoration stage *)

Lemma frame_loop_spec w out pending : forall n s fps wd h fr,
  st_files s !! out = Some (Mp4v (Video fps wd h fr)) ->
  frame_loop w out pending n s =
    (loop_outcome w n pending,
     State (st_dirs s)
           (<[out := Mp4v (Video fps wd h (fr ++ (restored_prefix w n pending).1))]>
              (st_files s))
           (st_open s)
           (st_trace s ++ loop_events w n pending)).
Proof.
  induction pending as [|f rest IH]; intros n s fps wd h fr Hout.
  - unfold loop_outcome. cbn [frame_loop restored_prefix loop_events fst snd length].
    rewrite !app_nil_r, Nat.add_0_r, insert_id by exact Hout.
    now rewrite state_eta.
  - unfold loop_outcome.
    cbn [frame_loop restored_prefix loop_events].
    unfold enhance, log, mbind, M_bind, mret, M_ret, raise.
    destruct (w_enhance w n f) as [g|e]; cbn [fst snd].
    + unfold writer_write, set_files. cbn [st_files st_dirs st_open st_trace].
      rewrite Hout.
      erewrite IH by (cbn [st_files]; apply lookup_insert_eq).
      unfold loop_outcome. cbn [st_files st_dirs st_open st_trace length].
      rewrite insert_insert_eq, <- !app_assoc, Nat.add_succ_r.
      reflexivity.
    + cbn [st_files st_dirs st_open st_trace].
      rewrite app_nil_r, insert_id by exact Hout.
      reflexivity.
Qed.

Lemma remove_first_head r l : remove_first r (r :: l) = l.
Proof. cbn. now rewrite decide_True. Qed.

Lemma remove_first_skip r x l : x <> r -> remove_first r (x :: l) = x :: remove_first r l.
Proof. intros H. cbn. now rewrite decide_False. Qed.

Lemma restore_faces_video_spec w input_path output_path s :
  w_gfpgan_init w = None ->
  restore_faces_video w input_path output_path s =
    (restore_outcome w (decode w s input_path) output_path,
     State (st_dirs s)
           (<[output_path := Mp4v (restore_output w (decode w s input_path))]> (st_files s))
           (restore_open w (decode w s input_path) input_path output_path (st_open s))
           (st_trace s ++ EvStage FaceRestore :: EvGfpganInit ::
              loop_events w 0 (cap_frames (decode w s input_path)))).
Proof.
  intros Hinit. unfold restore_faces_video. rewrite Hinit.
  unfold VideoCapture, VideoWriter, log, mbind, M_bind, mret, M_ret.
  cbn [fst snd st_files st_dirs st_open st_trace].
  set (cap := decode w _ input_path).
  assert (Hcap : cap = decode w s input_path) by reflexivity.
  clearbody cap.
  erewrite frame_loop_spec
    by (unfold set_open, set_files; cbn [st_files]; apply lookup_insert_eq).
  unfold restore_outcome, restore_open, restore_output, set_open, set_files.
  cbn [st_files st_dirs st_open st_trace].
  rewrite insert_insert_eq, <- !app_assoc. cbn [app].
  subst cap.
  destruct (loop_outcome w 0 (cap_frames _)) as [n|e].
  - unfold cap_release, release, mret, M_ret, set_open.
    destruct (decode w s input_path) as [v|]; cbn [st_files st_dirs st_open st_trace].
    + rewrite (remove_first_skip (Decoder input_path)) by discriminate.
      rewrite !remove_first_head, <- ?app_assoc. reflexivity.
    + rewrite remove_first_head, <- ?app_assoc. reflexivity.
  - destruct (decode w s input_path);
      cbn [st_files st_dirs st_open st_trace]; rewrite <- ?app_assoc; reflexivity.
Qed.

(** ** Traces of the stage functions *)

Lemma new_events_app s s' (evs : list event) :
  st_trace s' = st_trace s ++ evs -> new_events s s' = evs.
Proof. intros H. unfold new_events. rewrite H. apply drop_app_length. Qed.

Lemma stages_of_app (a b : list event) :
  stages_of (a ++ b) = stages_of a ++ stages_of b.
Proof. apply omap_app. Qed.

Lemma workspaces_of_app (a b : list event) :
  workspaces_of (a ++ b) = workspaces_of a ++ workspaces_of b.
Proof. apply omap_app. Qed.

Lemma io_only_stages evs : io_only evs -> stages_of evs = [].
Proof.
  induction 1 as [|e evs He _ IH]; [reflexivity|].
  destruct e; try discriminate; exact IH.
Qed.

Lemma io_only_workspaces evs : io_only evs -> workspaces_of evs = [].
Proof.
  induction 1 as [|e evs He _ IH]; [reflexivity|].
  destruct e; try discriminate; exact IH.
Qed.

Lemma loop_events_io w pending : forall i, io_only (loop_events w i pending).
Proof.
  induction pending as [|f rest IH]; intros i; cbn [loop_events].
  - constructor.
  - constructor; [reflexivity|].
    destruct (w_enhance w i f); [apply IH | constructor].
Qed.

Lemma download_file_enters w url dest : enters Fetch (download_file w url dest).
Proof.
  intros s. unfold download_file. run_prims.
  destruct (w_http_get w url) as [[chunks [e|]]|e]; run_prims;
    try (destruct (w_open_error w dest); run_prims);
    (eexists; split; [rewrite <- ?app_assoc; reflexivity | io_events]).
Qed.

Lemma run_realesrgan_enters w i o scale model :
  enters Upscale (run_realesrgan w i o scale model).
Proof.
  intros s. unfold run_realesrgan.
  destruct model; run_prims;
    try (eexists; split; [rewrite <- ?app_assoc; reflexivity | io_events]).
  destruct (w_subprocess w _) as [[rc err| |e] writes]; run_prims;
    [destruct (negb (rc =? 0)); run_prims| |];
    (eexists; split; [rewrite <- ?app_assoc; reflexivity | io_events]).
Qed.

Lemma enhance_audio_enters w i o : enters AudioEnhance (enhance_audio w i o).
Proof.
  intros s. unfold enhance_audio. run_prims.
  destruct (w_subprocess w _) as [[rc err| |e] writes]; run_prims;
    [destruct (negb (rc =? 0)); run_prims| |];
    (eexists; split; [rewrite <- ?app_assoc; reflexivity | io_events]).
Qed.

Lemma upload_result_enters w p url : enters Publish (upload_result w p url).
Proof.
  intros s. unfold upload_result. run_prims.
  destruct (truthy url); run_prims.
  - destruct (st_files s !! p) as [f|]; run_prims;
      [destruct (w_http_put w url f); run_prims; [|destruct url; run_prims]|];
      (eexists; split; [rewrite <- ?app_assoc; reflexivity | io_events]).
  - destruct (st_files s !! p) as [[b|v]|]; run_prims;
      (eexists; split; [rewrite <- ?app_assoc; reflexivity | io_events]).
Qed.

Lemma restore_faces_video_enters w i o : enters FaceRestore (restore_faces_video w i o).
Proof.
  intros s. destruct (w_gfpgan_init w) as [e|] eqn:Hinit.
  - unfold restore_faces_video. rewrite Hinit. run_prims.
    eexists; split; [rewrite <- ?app_assoc; reflexivity | io_events].
  - rewrite restore_faces_video_spec by exact Hinit. cbn [snd st_trace].
    eexists; split; [reflexivity|].
    constructor; [reflexivity | apply loop_events_io].
Qed.

Lemma enters_then_ret {A B} n (m : M A) (b : B) : enters n m -> enters n (m;; mret b).
Proof.
  intros H s. destruct (H s) as (evs & Ht & Hio).
  exists evs. split; [|exact Hio].
  unfold mbind, M_bind, mret, M_ret. destruct (m s) as [[a|e] s']; exact Ht.
Qed.

(** ** The handler is the chain of its stages *)

Lemma handler_pipeline w job ji url s :
  accepted job ji url ->
  handler w job s =
    (finish w ji (run_chain (pipeline w ji (w_mkdtemp w) url) "" (acquire w s)).1,
     rmtree (w_mkdtemp w) (run_chain (pipeline w ji (w_mkdtemp w) url) "" (acquire w s)).2).
Proof.
  intros (Hin & Hurl & Hne).
  unfold handler. rewrite Hin. unfold mbind at 1. unfold M_bind, mret at 1, M_ret.
  unfold dict_get at 1. rewrite Hurl. cbn [default truthy].
  assert (Hb : String.eqb url "" = false) by now apply String.eqb_neq.
  change (truthy (id (PStr url))) with (negb (String.eqb url "")).
  rewrite Hb. cbn [negb].
  unfold TemporaryDirectory, fspath, dict_get. rewrite Hurl. cbn [default id].
  unfold pipeline, before_audio, stage_fetch, stage_upscale, stage_face, stage_audio,
    stage_publish, job_scale, job_model, job_face_restore, job_audio_enhance,
    job_upload_url, input_path_of, upscaled_path_of, restored_path_of, audio_path_of,
    dict_get.
  destruct (truthy (default (PBool true) (ji !! "face_restore")));
    destruct (truthy (default (PBool true) (ji !! "audio_enhance")));
    cbn [app run_chain]; unfold mbind, M_bind, mret, M_ret;
    repeat (match goal with
            | |- context [download_file ?a ?b ?c ?d] =>
                destruct (download_file a b c d) as [[?|?] ?]
            | |- context [run_realesrgan ?a ?b ?c ?d ?e ?f] =>
                destruct (run_realesrgan a b c d e f) as [[?|?] ?]
            | |- context [restore_faces_video ?a ?b ?c ?d] =>
                destruct (restore_faces_video a b c d) as [[?|?] ?]
            | |- context [enhance_audio ?a ?b ?c ?d] =>
                destruct (enhance_audio a b c d) as [[?|?] ?]
            | |- context [upload_result ?a ?b ?c ?d] =>
                destruct (upload_result a b c d) as [[?|?] ?]
            end; cbn [fst snd finish]);
    reflexivity.
Qed.

Lemma run_chain_app l1 l2 c s :
  run_chain (l1 ++ l2) c s = (run_chain l1 c ≫= run_chain l2) s.
Proof.
  revert c s. induction l1 as [|[n f] l1 IH]; intros c s.
  - reflexivity.
  - cbn [app run_chain]. rewrite bind_assoc.
    unfold mbind, M_bind. destruct (f c s) as [[a|e] s']; [apply IH | reflexivity].
Qed.

(** A stage that raises ends the chain there: the stages after it do not run. *)
Lemma run_chain_raise_at pre n f post c s c1 s1 e s2 :
  run_chain pre c s = (Ret c1, s1) ->
  f c1 s1 = (Raise e, s2) ->
  run_chain (pre ++ (n, f) :: post) c s = (Raise e, s2).
Proof.
  intros Hpre Hf. rewrite run_chain_app.
  rewrite (bind_Ret _ _ _ _ _ Hpre). cbn [run_chain].
  now rewrite (bind_Raise _ _ _ _ _ Hf).
Qed.

Lemma run_chain_trace l : announced l -> forall c s,
  exists evs, st_trace (run_chain l c s).2 = st_trace s ++ evs
              /\ workspaces_of evs = []
              /\ (forall x s', run_chain l c s = (Ret x, s') -> stages_of evs = map fst l).
Proof.
  induction 1 as [|[n f] l Hf _ IH]; intros c s.
  - exists []. cbn. rewrite app_nil_r. auto.
  - cbn [run_chain]. destruct (Hf c s) as (evs1 & Ht1 & Hio1). cbn [fst snd] in *.
    unfold mbind, M_bind. destruct (f c s) as [[a|e] s1]; cbn [snd] in *.
    + destruct (IH a s1) as (evs2 & Ht2 & Hw2 & Hs2).
      exists (EvStage n :: evs1 ++ evs2). split; [|split].
      * rewrite Ht2, Ht1, <- app_assoc. reflexivity.
      * change (workspaces_of (evs1 ++ evs2) = []).
        now rewrite workspaces_of_app, io_only_workspaces, Hw2.
      * intros x s' Hrun.
        change (n :: stages_of (evs1 ++ evs2) = n :: map fst l).
        now rewrite stages_of_app, io_only_stages, (Hs2 _ _ Hrun).
    + exists (EvStage n :: evs1). split; [exact Ht1|split].
      * change (workspaces_of evs1 = []). now apply io_only_workspaces.
      * discriminate.
Qed.

Lemma pipeline_announced w ji tmpdir url : announced (pipeline w ji tmpdir url).
Proof.
  unfold pipeline, before_audio, announced.
  destruct (truthy (job_face_restore ji)); destruct (truthy (job_audio_enhance ji));
    cbn [app];
    repeat first [ apply Forall_nil_2 | apply Forall_cons_2 ];
    intros c; cbn [fst snd stage_fetch stage_upscale stage_face stage_audio stage_publish];
    first [ apply download_file_enters
          | apply enters_then_ret, run_realesrgan_enters
          | apply enters_then_ret, restore_faces_video_enters
          | apply enhance_audio_enters
          | apply upload_result_enters ].
Qed.

(** The handler when some stage raises: the exception leaves the handler as it
    is, the workspace is removed, and the trace stops at that stage. *)
Lemma handler_raise_at w job ji url s pre n f post c1 s1 e s2 :
  accepted job ji url ->
  pipeline w ji (w_mkdtemp w) url = pre ++ (n, f) :: post ->
  run_chain pre "" (acquire w s) = (Ret c1, s1) ->
  f c1 s1 = (Raise e, s2) ->
  handler w job s = (Raise e, rmtree (w_mkdtemp w) s2)
  /\ stages_of (new_events s (handler w job s).2) = map fst pre ++ [n].
Proof.
  intros Hacc Hpipe Hpre Hf.
  assert (Hh : handler w job s = (Raise e, rmtree (w_mkdtemp w) s2)).
  { rewrite (handler_pipeline _ _ _ _ _ Hacc), Hpipe.
    now rewrite (run_chain_raise_at _ _ _ _ _ _ _ _ _ _ Hpre Hf). }
  split; [exact Hh|]. rewrite Hh. cbn [snd].
  pose proof (pipeline_announced w ji (w_mkdtemp w) url) as Hann.
  rewrite Hpipe in Hann. apply Forall_app in Hann as [Hann1 Hann2].
  apply Forall_cons in Hann2 as [Hn _].
  destruct (run_chain_trace _ Hann1 "" (acquire w s)) as (evs1 & Ht1 & _ & Hs1).
  rewrite Hpre in Ht1. cbn [snd] in Ht1. specialize (Hs1 _ _ Hpre).
  destruct (Hn c1 s1) as (evs2 & Ht2 & Hio2). cbn [fst snd] in Ht2.
  rewrite Hf in Ht2. cbn [snd] in Ht2.
  erewrite new_events_app.
  2:{ cbn [rmtree st_trace]. rewrite Ht2, Ht1. cbn [acquire st_trace].
      rewrite <- !app_assoc. reflexivity. }
  rewrite !stages_of_app, Hs1.
  change (stages_of (EvStage n :: evs2)) with (n :: stages_of evs2).
  rewrite (io_only_stages _ Hio2). reflexivity.
Qed.

(** The handler either leaves the state alone or acquires one workspace and
    removes it last. *)
Lemma handler_cases w job s :
  if acquires job then
    exists s2 evs,
      (handler w job s).2 = rmtree (w_mkdtemp w) s2
      /\ st_trace s2 = st_trace (acquire w s) ++ evs
      /\ workspaces_of evs = []
  else (handler w job s).2 = s.
Proof.
  unfold acquires.
  destruct (job !! "input") as [[v|ji]|] eqn:Hin;
    [unfold handler; now rewrite Hin | | unfold handler; now rewrite Hin].
  unfold dict_get.
  destruct (ji !! "video_url") as [[|b|z|url]|] eqn:Hurl; cbn [default id truthy].
  1,5: unfold handler; rewrite Hin; unfold mbind, M_bind, mret, M_ret, dict_get;
       rewrite Hurl; reflexivity.
  - destruct b.
    + exists (acquire w s), []. rewrite app_nil_r.
      unfold handler. rewrite Hin. unfold mbind, M_bind, mret, M_ret, dict_get.
      rewrite Hurl. repeat split; reflexivity.
    + unfold handler. rewrite Hin. unfold mbind, M_bind, mret, M_ret, dict_get.
      rewrite Hurl. reflexivity.
  - destruct (Z.eqb_spec z 0) as [->|Hz]; cbn [negb].
    + unfold handler. rewrite Hin. unfold mbind, M_bind, mret, M_ret, dict_get.
      rewrite Hurl. reflexivity.
    + exists (acquire w s), []. rewrite app_nil_r.
      unfold handler. rewrite Hin. unfold mbind, M_bind, mret, M_ret, dict_get.
      rewrite Hurl. cbn [default id truthy].
      apply Z.eqb_neq in Hz. rewrite Hz. repeat split; reflexivity.
  - destruct (String.eqb_spec url "") as [->|Hne]; cbn [negb].
    + unfold handler. rewrite Hin. unfold mbind, M_bind, mret, M_ret, dict_get.
      rewrite Hurl. reflexivity.
    + rewrite (handler_pipeline w job ji url s) by (split; [|split]; assumption).
      cbn [snd].
      destruct (run_chain_trace _ (pipeline_announced w ji (w_mkdtemp w) url) ""
                  (acquire w s)) as (evs & Ht & Hw & _).
      eauto.
Qed.

(** ** Paths under the workspace *)

Lemma prefix_self_app x b : String.prefix x (x +:+ b) = true.
Proof.
  induction x as [|c x IH]; [now destruct b|].
  change (String.prefix (String c x) (String c x +:+ b))
    with (if ascii_dec c c then String.prefix x (x +:+ b) else false).
  destruct (ascii_dec c c) as [_|Hc]; [exact IH | now destruct Hc].
Qed.

Lemma prefix_app d x b : String.prefix (d +:+ x) (d +:+ x +:+ b) = true.
Proof.
  induction d as [|c d IH]; [exact (prefix_self_app x b)|].
  change (String.prefix (String c d +:+ x) (String c d +:+ x +:+ b))
    with (if ascii_dec c c then String.prefix (d +:+ x) (d +:+ x +:+ b) else false).
  destruct (ascii_dec c c) as [_|Hc]; [exact IH | now destruct Hc].
Qed.

Lemma string_app_empty d : d +:+ "" = d.
Proof.
  induction d as [|c d IH]; [reflexivity|].
  change (String c d +:+ "") with (String c (d +:+ "")). now rewrite IH.
Qed.

Lemma joined_is_under d name :
  starts_with_sep name = false -> is_under d (os_path_join d name) = true.
Proof.
  intros Hname. unfold is_under, os_path_join. rewrite Hname. cbn [starts_with_sep].
  destruct (String.eqb d "" || ends_with_sep d).
  - rewrite string_app_empty. apply prefix_self_app.
  - apply (prefix_app d "/" name).
Qed.

Lemma rmtree_gone d s : workspace_gone d (rmtree d s).
Proof.
  assert (Hunder : forall p, is_under d p = true -> st_files (rmtree d s) !! p = None).
  { intros p Hp. cbn [rmtree st_files]. apply map_lookup_filter_None. right.
    intros f _. cbn [fst]. rewrite Hp. discriminate. }
  split; [|split].
  - cbn [rmtree st_dirs]. rewrite elem_of_filter. intros [[Hd _] _]. now apply Hd.
  - exact Hunder.
  - intros name Hname. apply Hunder, joined_is_under, Hname.
Qed.

(** * Properties of the handler *)

(** ** Input validation *)

(** C8. A job whose input has no [video_url], or an empty one, gets exactly
    [{"error": "video_url required"}] and the state is left as it was: no
    workspace is acquired, no stage is entered, nothing is downloaded, run or
    uploaded. *)
Theorem handler_requires_video_url w job ji s :
  job !! "input" = Some (JObject ji) ->
  ji !! "video_url" = None \/ ji !! "video_url" = Some (PStr "") ->
  handler w job s = (Ret [("error", RStr "video_url required")], s)
  /\ new_events s (handler w job s).2 = [].
Proof.
  intros Hin Hurl.
  assert (Hh : handler w job s = (Ret [("error", RStr "video_url required")], s)).
  { unfold handler. rewrite Hin. unfold mbind, M_bind, mret, M_ret, dict_get.
    destruct Hurl as [-> | ->]; reflexivity. }
  split; [exact Hh|]. rewrite Hh. unfold new_events. apply drop_all.
Qed.

Lemma handler_requires_video_url_witness :
  handler world_ok (job_of ∅) empty_state
    = (Ret [("error", RStr "video_url required")], empty_state)
  /\ new_events empty_state (handler world_ok (job_of ∅) empty_state).2 = [].
Proof.
  apply (handler_requires_video_url world_ok (job_of ∅) ∅ empty_state).
  - vm_compute. reflexivity.
  - left. vm_compute. reflexivity.
Defined.

(** ** Publish *)

Lemma py_split_nonempty c u : py_split c u <> [].
Proof.
  destruct u as [|a u]; cbn [py_split]; [discriminate|].
  destruct (Ascii.eqb a c); [discriminate|].
  destruct (py_split c u); discriminate.
Qed.

Lemma py_split_head c u :
  has_char c (hd EmptyString (py_split c u)) = false
  /\ (u = hd EmptyString (py_split c u)
      \/ exists rest, u = hd EmptyString (py_split c u) +:+ String c rest).
Proof.
  induction u as [|a u [IHc IHu]]; cbn [py_split].
  - split; [reflexivity | now left].
  - destruct (Ascii.eqb_spec a c) as [->|Hac].
    + split; [reflexivity | right; now exists u].
    + destruct (py_split c u) as [|piece pieces] eqn:Hsp;
        [now apply py_split_nonempty in Hsp|].
      cbn [hd] in *. split.
      * cbn [has_char]. apply Ascii.eqb_neq in Hac. now rewrite Hac, IHc.
      * destruct IHu as [->|[rest ->]]; [now left|right].
        exists rest. reflexivity.
Qed.

(** C9. With the artifact in place: when a destination is supplied and the
    upload succeeds, [upload_result] PUTs the artifact there and returns the
    destination cut before its first '?', so the result carries no query
    string; when no destination is supplied it returns the [file://]
    descriptor that spells out the artifact's size in bytes. *)
Theorem upload_result_publishes w file_path f s :
  st_files s !! file_path = Some f ->
  (forall u, u <> "" -> w_http_put w (PStr u) f = None ->
     exists r,
       upload_result w file_path (PStr u) s =
         (Ret r, State (st_dirs s) (st_files s) (st_open s)
                       (st_trace s ++ [EvStage Publish; EvHttpPut (PStr u) file_path]))
       /\ has_char "?" r = false
       /\ (u = r \/ exists rest, u = r +:+ String "?" rest))
  /\ (forall url, truthy url = false ->
        upload_result w file_path url s =
          (Ret ("file://" +:+ file_path +:+ " (" +:+ pretty (file_size w f) +:+ " bytes)"),
           State (st_dirs s) (st_files s) (st_open s) (st_trace s ++ [EvStage Publish]))).
Proof.
  intros Hf. split.
  - intros u Hu Hput. exists (hd EmptyString (py_split "?" u)).
    split; [|apply py_split_head].
    unfold upload_result. cbn [truthy].
    apply String.eqb_neq in Hu. rewrite Hu. cbn [negb].
    run_prims. rewrite Hf. run_prims. rewrite Hput. run_prims.
    now rewrite <- app_assoc.
  - intros url Hurl. unfold upload_result. rewrite Hurl. run_prims. rewrite Hf.
    now destruct f.
Qed.

Lemma upload_result_publishes_witness :
  (exists r,
     upload_result world_ok "/work/upscaled.mp4"
       (PStr "https://bucket/out.mp4?X-Sig=abc?d") state_with_video =
       (Ret r, State ∅ (st_files state_with_video) []
                 [EvStage Publish;
                  EvHttpPut (PStr "https://bucket/out.mp4?X-Sig=abc?d")
                            "/work/upscaled.mp4"])
     /\ has_char "?" r = false
     /\ ("https://bucket/out.mp4?X-Sig=abc?d" = r
         \/ exists rest, "https://bucket/out.mp4?X-Sig=abc?d" = r +:+ String "?" rest))
  /\ upload_result world_ok "/work/upscaled.mp4" (PStr "") state_with_video =
       (Ret "file:///work/upscaled.mp4 (3000 bytes)",
        State ∅ (st_files state_with_video) [] [EvStage Publish]).
Proof.
  destruct (upload_result_publishes world_ok "/work/upscaled.mp4"
              (Mp4v sample_video) state_with_video) as [Hput Hnone].
  - vm_compute. reflexivity.
  - split.
    + apply Hput; [discriminate | reflexivity].
    + apply Hnone. reflexivity.
Defined.

(** The value the strip produces on a signed URL, at the stage and in the
    result of a whole job. *)
Example upload_result_strip_example :
  (upload_result world_ok "/work/upscaled.mp4"
     (PStr "https://bucket/out.mp4?X-Sig=abc?d") state_with_video).1
  = Ret "https://bucket/out.mp4".
Proof. vm_compute. reflexivity. Qed.

Example handler_upload_example :
  (handler world_ok (job_of input_upload) empty_state).1
  = Ret [("video_url", RStr "https://bucket/out.mp4");
         ("duration_secs", RFloat (12 # 10));
         ("scale", RVal (PInt 4));
         ("face_restore", RVal (PBool true));
         ("audio_enhance", RVal (PBool true))].
Proof. vm_compute. reflexivity. Qed.

(** ** Face restoration *)


Lemma restored_prefix_lookup w pending : forall n i g,
  (restored_prefix w n pending).1 !! i = Some g ->
  exists f, pending !! i = Some f /\ w_enhance w (n + i) f = Ret g.
Proof.
  induction pending as [|f rest IH]; intros n i g; cbn [restored_prefix].
  - discriminate.
  - destruct (w_enhance w n f) as [g0|e] eqn:He; cbn [fst]; [|discriminate].
    destruct i as [|i]; cbn.
    + intros [= <-]. exists f. now rewrite Nat.add_0_r.
    + intros Hi. destruct (IH _ _ _ Hi) as (f' & Hf' & Hg).
      exists f'. split; [exact Hf'|]. now rewrite Nat.add_succ_r.
Qed.

Lemma restored_prefix_complete w pending : forall n,
  (restored_prefix w n pending).2 = None ->
  length (restored_prefix w n pending).1 = length pending.
Proof.
  induction pending as [|f rest IH]; intros n; cbn [restored_prefix].
  - reflexivity.
  - destruct (w_enhance w n f); cbn [fst snd length]; [|discriminate].
    intros H. now rewrite IH.
Qed.

Lemma restorer_accepts_all w frames : forall n,
  (forall i f, frames !! i = Some f -> exists g, w_enhance w (n + i) f = Ret g) ->
  (restored_prefix w n frames).2 = None.
Proof.
  induction frames as [|f rest IH]; intros n Hacc; [reflexivity|].
  cbn [restored_prefix].
  destruct (Hacc 0%nat f eq_refl) as [g Hg]. rewrite Nat.add_0_r in Hg. rewrite Hg.
  cbn [snd]. apply IH. intros i f' Hi.
  destruct (Hacc (S i) f' Hi) as [g' Hg']. exists g'. now rewrite Nat.add_succ_r in Hg'.
Qed.

Lemma restored_prefix_forward w pending : forall n i f,
  (restored_prefix w n pending).2 = None ->
  pending !! i = Some f ->
  exists g, w_enhance w (n + i) f = Ret g
            /\ (restored_prefix w n pending).1 !! i = Some g.
Proof.
  induction pending as [|f0 rest IH]; intros n i f; cbn [restored_prefix]; [discriminate|].
  destruct (w_enhance w n f0) as [g0|e] eqn:He; cbn [fst snd]; [|discriminate].
  intros Hnone. destruct i as [|i]; cbn.
  - intros [= <-]. exists g0. now rewrite Nat.add_0_r.
  - intros Hi. destruct (IH _ _ _ Hnone Hi) as (g & Hg & Hlk).
    exists g. split; [now rewrite Nat.add_succ_r | exact Hlk].
Qed.




(** C5. On an input video for which every inference call succeeds, the stage
    returns and the video it has written has exactly as many frames as the
    input; frame [i] of the output is the restored image of frame [i] of the
    input, so no frame is dropped, duplicated, reordered or held back. *)
Theorem restore_writes_one_frame_per_decoded_frame w input_path output_path s v :
  w_gfpgan_init w = None ->
  decode w s input_path = Some v ->
  restorer_accepts w (v_frames v) ->
  (restore_faces_video w input_path output_path s).1 = Ret output_path
  /\ exists v',
       st_files (restore_faces_video w input_path output_path s).2 !! output_path
         = Some (Mp4v v')
       /\ length (v_frames v') = length (v_frames v)
       /\ (forall i f, v_frames v !! i = Some f ->
             exists g, w_enhance w i f = Ret g /\ v_frames v' !! i = Some g)
       /\ (forall i g, v_frames v' !! i = Some g ->
             exists f, v_frames v !! i = Some f /\ w_enhance w i f = Ret g).
Proof.
  intros Hinit Hdec Hacc. rewrite restore_faces_video_spec by exact Hinit.
  rewrite Hdec. cbn [fst snd st_files].
  pose proof (restorer_accepts_all w (v_frames v) 0 Hacc) as Hnone.
  split.
  - unfold restore_outcome, loop_outcome. cbn [cap_frames]. now rewrite Hnone.
  - eexists. split; [apply lookup_insert_eq|].
    cbn [restore_output v_frames cap_frames]. split; [|split].
    + now apply restored_prefix_complete.
    + intros i f Hf. exact (restored_prefix_forward _ _ _ _ _ Hnone Hf).
    + intros i g Hg. now apply restored_prefix_lookup in Hg.
Qed.

Lemma restore_writes_one_frame_per_decoded_frame_witness :
  (restore_faces_video world_ok "/work/upscaled.mp4" "/work/restored.mp4"
     state_with_video).1 = Ret "/work/restored.mp4"
  /\ exists v',
       st_files (restore_faces_video world_ok "/work/upscaled.mp4"
                   "/work/restored.mp4" state_with_video).2 !! "/work/restored.mp4"
         = Some (Mp4v v')
       /\ length (v_frames v') = 3%nat
       /\ (forall i f, v_frames sample_video !! i = Some f ->
             exists g, brighten i f = Ret g /\ v_frames v' !! i = Some g)
       /\ (forall i g, v_frames v' !! i = Some g ->
             exists f, v_frames sample_video !! i = Some f /\ brighten i f = Ret g).
Proof.
  apply (restore_writes_one_frame_per_decoded_frame world_ok "/work/upscaled.mp4"
           "/work/restored.mp4" state_with_video sample_video).
  - reflexivity.
  - vm_compute. reflexivity.
  - intros i f _. eexists. reflexivity.
Defined.

(** What the loop produces on the sample video. *)
Example restore_sample_frames :
  (restore_faces_video world_ok "/work/upscaled.mp4" "/work/restored.mp4"
     state_with_video).1 = Ret "/work/restored.mp4"
  /\ st_files (restore_faces_video world_ok "/work/upscaled.mp4" "/work/restored.mp4"
                 state_with_video).2 !! "/work/restored.mp4"
     = Some (Mp4v (Video (30 # 1) 8 4 [[2; 3]; [4; 5]; [6; 7]])).
Proof. split; vm_compute; reflexivity. Qed.

(** On a normal return both OpenCV objects have been released. *)
Lemma restore_releases_on_return w input_path output_path s p s' :
  restore_faces_video w input_path output_path s = (Ret p, s') ->
  st_open s' = st_open s.
Proof.
  destruct (w_gfpgan_init w) as [e|] eqn:Hinit.
  - unfold restore_faces_video. rewrite Hinit. run_prims. discriminate.
  - rewrite restore_faces_video_spec by exact Hinit.
    unfold restore_outcome, restore_open.
    destruct (loop_outcome w 0 _); [|discriminate].
    now intros [= _ <-].
Qed.

(** When inference raises, the two [release()] calls after the loop are never
    reached. *)
Lemma restore_holds_on_raise w input_path output_path s v e s' :
  w_gfpgan_init w = None ->
  decode w s input_path = Some v ->
  restore_faces_video w input_path output_path s = (Raise e, s') ->
  st_open s' = Encoder output_path :: Decoder input_path :: st_open s.
Proof.
  intros Hinit Hdec. rewrite restore_faces_video_spec by exact Hinit.
  rewrite Hdec. unfold restore_outcome, restore_open.
  destruct (loop_outcome w 0 _); [discriminate|].
  now intros [= _ <-].
Qed.

(** C3. Inference raising on the second frame of a three-frame video: the
    stage ends with that exception while the decoder and the encoder are both
    still held. *)
Theorem restore_leaves_codecs_open_on_raise :
  (restore_faces_video world_restorer_fails "/work/upscaled.mp4" "/work/restored.mp4"
     state_with_video).1 = Raise (External "RuntimeError" "CUDA out of memory")
  /\ st_open (restore_faces_video world_restorer_fails "/work/upscaled.mp4"
                "/work/restored.mp4" state_with_video).2
     = [Encoder "/work/restored.mp4"; Decoder "/work/upscaled.mp4"]
  /\ st_open state_with_video = [].
Proof. repeat split; vm_compute; reflexivity. Qed.

(** ** Failure policy of the handler *)

(** C1, as stated, fails: when the upscale executable exits with status 1 the
    handler does not return a result dict at all; the [RuntimeError] leaves the
    handler as an exception. *)
Lemma upscale_failure_is_raised_not_returned :
  (handler world_upscale_fails (job_of input_default) empty_state).1
    = Raise (RuntimeError "Real-ESRGAN failed: boom")
  /\ ~ (exists r : pyresult,
          (handler world_upscale_fails (job_of input_default) empty_state).1 = Ret r
          /\ exists v, In ("error", v) r).
Proof.
  assert (H : (handler world_upscale_fails (job_of input_default) empty_state).1
              = Raise (RuntimeError "Real-ESRGAN failed: boom"))
    by (vm_compute; reflexivity).
  split; [exact H|]. intros (r & Hr & _). rewrite H in Hr. discriminate.
Qed.

(** C1, amended. Whenever a stage of the pipeline raises, the handler raises
    that very exception (it returns no result dict), the workspace is removed,
    and the stages entered are exactly those up to the failing one: no later
    stage is invoked. *)
Theorem fatal_stage_error_propagates w job ji url s pre n f post c1 s1 e s2 :
  accepted job ji url ->
  pipeline w ji (w_mkdtemp w) url = pre ++ (n, f) :: post ->
  run_chain pre "" (acquire w s) = (Ret c1, s1) ->
  f c1 s1 = (Raise e, s2) ->
  handler w job s = (Raise e, rmtree (w_mkdtemp w) s2)
  /\ stages_of (new_events s (handler w job s).2) = map fst pre ++ [n].
Proof. apply handler_raise_at. Qed.

Lemma fatal_stage_error_propagates_witness :
  handler world_upscale_fails (job_of input_default) empty_state
    = (Raise (RuntimeError "Real-ESRGAN failed: boom"),
       rmtree "/tmp/tmpjob"
         ((stage_upscale world_upscale_fails input_default "/tmp/tmpjob"
             "https://x/test.mp4").2
            "/tmp/tmpjob/input.mp4"
            (run_chain [stage_fetch world_upscale_fails "/tmp/tmpjob" "https://x/test.mp4"]
               "" (acquire world_upscale_fails empty_state)).2).2)
  /\ stages_of (new_events empty_state
                  (handler world_upscale_fails (job_of input_default) empty_state).2)
     = [Fetch; Upscale].
Proof.
  apply (fatal_stage_error_propagates world_upscale_fails (job_of input_default)
           input_default "https://x/test.mp4" empty_state
           [stage_fetch world_upscale_fails "/tmp/tmpjob" "https://x/test.mp4"]
           Upscale
           (stage_upscale world_upscale_fails input_default "/tmp/tmpjob"
              "https://x/test.mp4").2
           [stage_face world_upscale_fails "/tmp/tmpjob";
            stage_audio world_upscale_fails "/tmp/tmpjob";
            stage_publish world_upscale_fails input_default]
           "/tmp/tmpjob/input.mp4"
           (run_chain [stage_fetch world_upscale_fails "/tmp/tmpjob" "https://x/test.mp4"]
              "" (acquire world_upscale_fails empty_state)).2
           (RuntimeError "Real-ESRGAN failed: boom")).
  - split; [|split]; [vm_compute; reflexivity | vm_compute; reflexivity | discriminate].
  - reflexivity.
  - vm_compute. reflexivity.
  - vm_compute. reflexivity.
Defined.

(** ** Workspace lifetime *)

(** C6. On every path through the handler, whatever the stages do and however
    the handler ends, each workspace acquired during the run is gone from the
    final state: the directory is no longer there and no file remains under
    it (the stage artifacts in particular).  A job whose [video_url] is absent
    or falsy is answered before any workspace is acquired. *)
Theorem workspace_removed_on_every_path w job s :
  workspaces_of (new_events s (handler w job s).2)
    = (if acquires job then [w_mkdtemp w] else [])
  /\ Forall (fun d => workspace_gone d (handler w job s).2)
            (workspaces_of (new_events s (handler w job s).2)).
Proof.
  pose proof (handler_cases w job s) as H.
  destruct (acquires job).
  - destruct H as (s2 & evs & Hs & Ht & Hw).
    assert (Hnew : new_events s (handler w job s).2
                   = EvMkdtemp (w_mkdtemp w) :: evs ++ [EvRmtree (w_mkdtemp w)]).
    { apply new_events_app. rewrite Hs. cbn [rmtree st_trace]. rewrite Ht.
      cbn [acquire st_trace]. now rewrite <- !app_assoc. }
    rewrite Hnew.
    change (workspaces_of (EvMkdtemp (w_mkdtemp w) :: evs ++ [EvRmtree (w_mkdtemp w)]))
      with (w_mkdtemp w :: workspaces_of (evs ++ [EvRmtree (w_mkdtemp w)])).
    rewrite workspaces_of_app, Hw. cbn [app workspaces_of omap].
    split; [reflexivity|].
    constructor; [|constructor]. rewrite Hs. apply rmtree_gone.
  - rewrite H. unfold new_events. rewrite drop_all. split; [reflexivity | constructor].
Qed.

(** The workspace on three exits: success, a fatal stage error, and an
    exception outside any stage ([Path(True)] is a [TypeError]). *)
Example workspace_after_success :
  (handler world_ok (job_of input_default) empty_state).1
    = Ret [("video_url", RStr "file:///tmp/tmpjob/audio_enhanced.mp4 (4 bytes)");
           ("duration_secs", RFloat (12 # 10));
           ("scale", RVal (PInt 4));
           ("face_restore", RVal (PBool true));
           ("audio_enhance", RVal (PBool true))]
  /\ st_dirs (handler world_ok (job_of input_default) empty_state).2 = ∅
  /\ st_files (handler world_ok (job_of input_default) empty_state).2 = ∅.
Proof. split; [|split]; vm_compute; reflexivity. Qed.

Example workspace_after_fatal_error :
  (handler world_restorer_fails (job_of input_default) empty_state).1
    = Raise (External "RuntimeError" "CUDA out of memory")
  /\ st_dirs (handler world_restorer_fails (job_of input_default) empty_state).2 = ∅
  /\ st_files (handler world_restorer_fails (job_of input_default) empty_state).2 = ∅.
Proof. split; [|split]; vm_compute; reflexivity. Qed.

Example workspace_after_unexpected_exception :
  handler world_ok (job_of {["video_url" := PBool true]}) empty_state
    = (Raise TypeError,
       State ∅ ∅ [] [EvMkdtemp "/tmp/tmpjob"; EvRmtree "/tmp/tmpjob"]).
Proof. vm_compute. reflexivity. Qed.

(** ** Audio enhancement *)

Lemma enhance_audio_exited w i o s rc err writes :
  w_subprocess w (audio_cmd i o) = (Exited rc err, writes) ->
  (enhance_audio w i o s).1 = Ret (if negb (rc =? 0) then i else o).
Proof.
  intros H. unfold enhance_audio. run_prims. rewrite H. run_prims.
  now destruct (negb (rc =? 0)).
Qed.

Lemma enhance_audio_timed_out w i o s writes :
  w_subprocess w (audio_cmd i o) = (TimedOut, writes) ->
  (enhance_audio w i o s).1 = Raise (TimeoutExpired (audio_cmd i o) 3600).
Proof. intros H. unfold enhance_audio. run_prims. now rewrite H. Qed.

Lemma pipeline_with_audio w ji tmpdir url :
  truthy (job_audio_enhance ji) = true ->
  pipeline w ji tmpdir url =
    before_audio w ji tmpdir url
    ++ (AudioEnhance, fun current => enhance_audio w current (audio_path_of tmpdir))
       :: [stage_publish w ji].
Proof. intros H. unfold pipeline. now rewrite H. Qed.

(** The handler from the audio stage on, when that stage returns. *)
Lemma handler_after_audio w job ji url s c1 s1 c2 s2 :
  accepted job ji url ->
  truthy (job_audio_enhance ji) = true ->
  run_chain (before_audio w ji (w_mkdtemp w) url) "" (acquire w s) = (Ret c1, s1) ->
  enhance_audio w c1 (audio_path_of (w_mkdtemp w)) s1 = (Ret c2, s2) ->
  handler w job s =
    (finish w ji (upload_result w c2 (job_upload_url ji) s2).1,
     rmtree (w_mkdtemp w) (upload_result w c2 (job_upload_url ji) s2).2).
Proof.
  intros Hacc Haudio Hpre Haud.
  rewrite (handler_pipeline _ _ _ _ _ Hacc), (pipeline_with_audio _ _ _ _ Haudio).
  rewrite run_chain_app, (bind_Ret _ _ _ _ _ Hpre).
  cbn [run_chain stage_publish]. rewrite (bind_Ret _ _ _ _ _ Haud).
  unfold mbind, M_bind, mret, M_ret.
  now destruct (upload_result w c2 (job_upload_url ji) s2) as [[u|e] s3].
Qed.

(** C2. When the audio filter exits with a non-zero status, [enhance_audio]
    returns the input path it was given, not the output path; the handler
    goes on to publish that pre-enhancement artifact, and the job succeeds
    with whatever location publishing it yields. *)
Theorem audio_failure_falls_back w rc err writes :
  rc <> 0 ->
  (forall input_path output_path s,
     w_subprocess w (audio_cmd input_path output_path) = (Exited rc err, writes) ->
     (enhance_audio w input_path output_path s).1 = Ret input_path)
  /\ (forall job ji url s c1 s1,
        accepted job ji url ->
        truthy (job_audio_enhance ji) = true ->
        run_chain (before_audio w ji (w_mkdtemp w) url) "" (acquire w s) = (Ret c1, s1) ->
        w_subprocess w (audio_cmd c1 (audio_path_of (w_mkdtemp w)))
          = (Exited rc err, writes) ->
        let s2 := (enhance_audio w c1 (audio_path_of (w_mkdtemp w)) s1).2 in
        handler w job s =
          (finish w ji (upload_result w c1 (job_upload_url ji) s2).1,
           rmtree (w_mkdtemp w) (upload_result w c1 (job_upload_url ji) s2).2)
        /\ forall result_url s3,
             upload_result w c1 (job_upload_url ji) s2 = (Ret result_url, s3) ->
             handler w job s =
               (Ret (success_result w result_url (job_scale ji) (job_face_restore ji)
                       (job_audio_enhance ji)),
                rmtree (w_mkdtemp w) s3)).
Proof.
  intros Hrc.
  assert (Hstage : forall input_path output_path s,
            w_subprocess w (audio_cmd input_path output_path) = (Exited rc err, writes) ->
            (enhance_audio w input_path output_path s).1 = Ret input_path).
  { intros i o s H. rewrite (enhance_audio_exited _ _ _ _ _ _ _ H).
    apply Z.eqb_neq in Hrc. now rewrite Hrc. }
  split; [exact Hstage|].
  intros job ji url s c1 s1 Hacc Haudio Hpre Hsub s2.
  assert (Haud : enhance_audio w c1 (audio_path_of (w_mkdtemp w)) s1 = (Ret c1, s2)).
  { subst s2. specialize (Hstage _ _ s1 Hsub).
    now destruct (enhance_audio w c1 (audio_path_of (w_mkdtemp w)) s1) as [r s'];
      cbn [fst snd] in *; subst. }
  pose proof (handler_after_audio _ _ _ _ _ _ _ _ _ Hacc Haudio Hpre Haud) as Hh.
  split; [exact Hh|].
  intros result_url s3 Hup. rewrite Hh, Hup. reflexivity.
Qed.

Lemma audio_failure_falls_back_witness :
  (enhance_audio world_audio_fails "/tmp/tmpjob/restored.mp4"
     "/tmp/tmpjob/audio_enhanced.mp4" empty_state).1 = Ret "/tmp/tmpjob/restored.mp4"
  /\ handler world_audio_fails (job_of input_default) empty_state =
       (Ret [("video_url", RStr "file:///tmp/tmpjob/restored.mp4 (3000 bytes)");
             ("duration_secs", RFloat (12 # 10));
             ("scale", RVal (PInt 4));
             ("face_restore", RVal (PBool true));
             ("audio_enhance", RVal (PBool true))],
        rmtree "/tmp/tmpjob"
          (upload_result world_audio_fails "/tmp/tmpjob/restored.mp4" (PStr "")
             (enhance_audio world_audio_fails "/tmp/tmpjob/restored.mp4"
                "/tmp/tmpjob/audio_enhanced.mp4"
                (run_chain
                   (before_audio world_audio_fails input_default "/tmp/tmpjob"
                      "https://x/test.mp4")
                   "" (acquire world_audio_fails empty_state)).2).2).2).
Proof.
  destruct (audio_failure_falls_back world_audio_fails 1 "no audio stream" [])
    as [Hstage Hjob]; [discriminate|].
  split.
  - apply Hstage. reflexivity.
  - apply (Hjob (job_of input_default) input_default "https://x/test.mp4" empty_state
             "/tmp/tmpjob/restored.mp4"
             (run_chain
                (before_audio world_audio_fails input_default "/tmp/tmpjob"
                   "https://x/test.mp4")
                "" (acquire world_audio_fails empty_state)).2).
    + split; [|split]; [vm_compute; reflexivity | vm_compute; reflexivity | discriminate].
    + reflexivity.
    + vm_compute. reflexivity.
    + reflexivity.
    + vm_compute. reflexivity.
Defined.

(** C10. The soft-fail branch looks at the exit status only.  When the audio
    filter overruns its 3600 seconds, [subprocess.run] raises
    [TimeoutExpired]; [enhance_audio] lets it through, and so does the
    handler: the job ends with that exception and Publish is never entered. *)
Theorem audio_timeout_is_fatal w job ji url s c1 s1 writes :
  accepted job ji url ->
  truthy (job_audio_enhance ji) = true ->
  run_chain (before_audio w ji (w_mkdtemp w) url) "" (acquire w s) = (Ret c1, s1) ->
  w_subprocess w (audio_cmd c1 (audio_path_of (w_mkdtemp w))) = (TimedOut, writes) ->
  (enhance_audio w c1 (audio_path_of (w_mkdtemp w)) s1).1
    = Raise (TimeoutExpired (audio_cmd c1 (audio_path_of (w_mkdtemp w))) 3600)
  /\ (handler w job s).1
     = Raise (TimeoutExpired (audio_cmd c1 (audio_path_of (w_mkdtemp w))) 3600)
  /\ stages_of (new_events s (handler w job s).2)
     = map fst (before_audio w ji (w_mkdtemp w) url) ++ [AudioEnhance].
Proof.
  intros Hacc Haudio Hpre Hsub.
  pose proof (enhance_audio_timed_out _ _ _ s1 _ Hsub) as Hstage.
  split; [exact Hstage|].
  destruct (enhance_audio w c1 (audio_path_of (w_mkdtemp w)) s1) as [r s2] eqn:Haud.
  cbn [fst] in Hstage. subst r.
  destruct (handler_raise_at w job ji url s _ AudioEnhance _ _ c1 s1 _ s2 Hacc
              (pipeline_with_audio _ _ _ _ Haudio) Hpre Haud) as [Hh Hst].
  split; [now rewrite Hh | exact Hst].
Qed.

Lemma audio_timeout_is_fatal_witness :
  (enhance_audio world_audio_timeout "/tmp/tmpjob/restored.mp4"
     "/tmp/tmpjob/audio_enhanced.mp4"
     (run_chain
        (before_audio world_audio_timeout input_default "/tmp/tmpjob" "https://x/test.mp4")
        "" (acquire world_audio_timeout empty_state)).2).1
    = Raise (TimeoutExpired
               (audio_cmd "/tmp/tmpjob/restored.mp4" "/tmp/tmpjob/audio_enhanced.mp4") 3600)
  /\ (handler world_audio_timeout (job_of input_default) empty_state).1
     = Raise (TimeoutExpired
                (audio_cmd "/tmp/tmpjob/restored.mp4" "/tmp/tmpjob/audio_enhanced.mp4") 3600)
  /\ stages_of (new_events empty_state
                  (handler world_audio_timeout (job_of input_default) empty_state).2)
     = [Fetch; Upscale; FaceRestore; AudioEnhance].
Proof.
  apply (audio_timeout_is_fatal world_audio_timeout (job_of input_default) input_default
           "https://x/test.mp4" empty_state "/tmp/tmpjob/restored.mp4"
           (run_chain
              (before_audio world_audio_timeout input_default "/tmp/tmpjob"
                 "https://x/test.mp4")
              "" (acquire world_audio_timeout empty_state)).2
           []).
  - split; [|split]; [vm_compute; reflexivity | vm_compute; reflexivity | discriminate].
  - reflexivity.
  - vm_compute. reflexivity.
  - reflexivity.
Defined.

(** ** Upscale *)

Lemma run_realesrgan_trace w i o scale m s :
  st_trace (run_realesrgan w i o scale (PStr m) s).2
    = st_trace s ++ [EvStage Upscale;
                     EvSubprocess (realesrgan_cmd i o m (py_str scale)) 7200].
Proof.
  unfold run_realesrgan. run_prims.
  destruct (w_subprocess w _) as [[rc err| |e] writes]; run_prims;
    [destruct (negb (rc =? 0)); run_prims| |];
    now rewrite <- app_assoc.
Qed.

(** C7, as stated, fails: a job asking for scale 3 is not rejected; the
    executable is run with [-s 3] and the job succeeds. *)
Lemma scale_three_is_not_rejected :
  ~ (3 = 2 \/ 3 = 4)
  /\ dict_get input_scale3 "scale" (PInt 4) = PInt 3
  /\ In (EvSubprocess
           ["realesrgan-ncnn-vulkan"; "-i"; "/tmp/tmpjob/input.mp4";
            "-o"; "/tmp/tmpjob/upscaled.mp4"; "-n"; "realesr-general-x4v3";
            "-s"; "3"; "-f"; "mp4"] 7200)
        (st_trace (handler world_ok (job_of input_scale3) empty_state).2)
  /\ (handler world_ok (job_of input_scale3) empty_state).1
     = Ret [("video_url", RStr "file:///tmp/tmpjob/upscaled.mp4 (3000 bytes)");
            ("duration_secs", RFloat (12 # 10));
            ("scale", RVal (PInt 3));
            ("face_restore", RVal (PBool false));
            ("audio_enhance", RVal (PBool false))].
Proof.
  split; [intros [H|H]; discriminate H|].
  split; [vm_compute; reflexivity|].
  split; [|vm_compute; reflexivity].
  vm_compute. tauto.
Qed.

(** C7, amended. The scale is not validated anywhere: once the download has
    succeeded and the model is a string, the upscale executable is run with
    [-s] followed by [str()] of whatever the job gave as [scale] (4 when the
    job gave none). *)
Theorem upscale_receives_job_scale w job ji url s m c s1 :
  accepted job ji url ->
  job_model ji = PStr m ->
  download_file w url (input_path_of w (w_mkdtemp w) url) (acquire w s) = (Ret c, s1) ->
  In (EvSubprocess
        (realesrgan_cmd (input_path_of w (w_mkdtemp w) url)
           (upscaled_path_of (w_mkdtemp w)) m (py_str (job_scale ji))) 7200)
     (new_events s (handler w job s).2).
Proof.
  intros Hacc Hmodel Hdl.
  rewrite (handler_pipeline _ _ _ _ _ Hacc). cbn [snd].
  pose proof (pipeline_announced w ji (w_mkdtemp w) url) as Hann.
  unfold pipeline, before_audio in *. cbn [app] in *.
  apply Forall_cons in Hann as [_ Hann]. apply Forall_cons in Hann as [_ Hann].
  set (rest := _ ++ _ ++ [stage_publish w ji]) in *.
  pose proof (run_realesrgan_trace w (input_path_of w (w_mkdtemp w) url)
                (upscaled_path_of (w_mkdtemp w)) (job_scale ji) m s1) as Hup.
  destruct (download_file_enters w url (input_path_of w (w_mkdtemp w) url) (acquire w s))
    as (evs0 & Ht0 & _).
  rewrite Hdl in Ht0. cbn [snd acquire st_trace] in Ht0.
  assert (Hfinal : exists evs,
            st_trace (run_chain (stage_fetch w (w_mkdtemp w) url
                                 :: stage_upscale w ji (w_mkdtemp w) url :: rest)
                        "" (acquire w s)).2
            = st_trace (run_realesrgan w (input_path_of w (w_mkdtemp w) url)
                          (upscaled_path_of (w_mkdtemp w)) (job_scale ji) (PStr m) s1).2
              ++ evs).
  { cbn [run_chain stage_fetch stage_upscale].
    rewrite (bind_Ret _ _ _ _ _ Hdl), Hmodel.
    unfold mbind, M_bind, mret, M_ret.
    destruct (run_realesrgan w _ _ _ _ s1) as [[a|e] s2]; cbn [snd].
    - destruct (run_chain_trace _ Hann (upscaled_path_of (w_mkdtemp w)) s2)
        as (evs & Ht & _).
      exists evs. exact Ht.
    - exists []. now rewrite app_nil_r. }
  destruct Hfinal as (evs & Hfinal).
  erewrite new_events_app.
  2:{ cbn [rmtree st_trace]. rewrite Hfinal, Hup, Ht0, <- !app_assoc. reflexivity. }
  apply in_app_iff. right. apply in_app_iff. right.
  apply in_app_iff. left. right. left. reflexivity.
Qed.

Lemma upscale_receives_job_scale_witness :
  In (EvSubprocess
        (realesrgan_cmd "/tmp/tmpjob/input.mp4" "/tmp/tmpjob/upscaled.mp4"
           "realesr-general-x4v3" "3") 7200)
     (new_events empty_state (handler world_ok (job_of input_scale3) empty_state).2).
Proof.
  apply (upscale_receives_job_scale world_ok (job_of input_scale3) input_scale3
           "https://x/test.mp4" empty_state "realesr-general-x4v3"
           "/tmp/tmpjob/input.mp4"
           (download_file world_ok "https://x/test.mp4" "/tmp/tmpjob/input.mp4"
              (acquire world_ok empty_state)).2).
  - split; [|split]; [vm_compute; reflexivity | vm_compute; reflexivity | discriminate].
  - vm_compute. reflexivity.
  - vm_compute. reflexivity.
Defined.


(** * Further properties of the stages *)

(** ** Fetch *)

Lemma download_file_trace w url dest s :
  st_trace (download_file w url dest s).2 = st_trace s ++ [EvStage Fetch; EvHttpGet url].
Proof.
  unfold download_file. run_prims.
  destruct (w_http_get w url) as [[chunks [e|]]|e]; run_prims;
    try (destruct (w_open_error w dest); run_prims);
    now rewrite <- app_assoc.
Qed.

Lemma download_file_open w url dest s :
  st_open (download_file w url dest s).2 = st_open s.
Proof.
  unfold download_file. run_prims.
  destruct (w_http_get w url) as [[chunks [e|]]|e]; run_prims;
    try (destruct (w_open_error w dest); run_prims); reflexivity.
Qed.

(** X1. When the request succeeds, [dest] can be opened for writing and the
    body arrives whole, the download returns [dest]; the file there holds the
    chunks of the body in the order received, so [os.path.getsize] then
    reports the number of bytes delivered; no other file is touched, and the
    only call to the outside is one GET of the URL. *)
Theorem download_file_stores_body w url dest s chunks :
  w_http_get w url = Ret (chunks, None) ->
  w_open_error w dest = None ->
  (download_file w url dest s).1 = Ret dest
  /\ st_files (download_file w url dest s).2 !! dest = Some (Bytes (concat chunks))
  /\ (getsize w dest (download_file w url dest s).2).1 = Ret (total_bytes chunks)
  /\ (forall p, p <> dest ->
        st_files (download_file w url dest s).2 !! p = st_files s !! p)
  /\ new_events s (download_file w url dest s).2 = [EvStage Fetch; EvHttpGet url].
Proof.
  intros Hget Hopen.
  assert (Hfile : st_files (download_file w url dest s).2
                  = <[dest := Bytes (concat chunks)]> (st_files s)).
  { unfold download_file. run_prims. rewrite Hget. run_prims. rewrite Hopen. run_prims.
    apply insert_insert_eq. }
  split; [unfold download_file; run_prims; rewrite Hget; run_prims; now rewrite Hopen|].
  split; [rewrite Hfile; apply lookup_insert_eq|].
  split; [unfold getsize; rewrite Hfile, lookup_insert_eq; reflexivity|].
  split; [intros p Hp; rewrite Hfile; now apply lookup_insert_ne|].
  apply new_events_app, download_file_trace.
Qed.

Lemma download_file_stores_body_witness :
  (download_file world_ok "https://x/test.mp4" "/work/input.mp4" state_with_video).1
    = Ret "/work/input.mp4"
  /\ st_files (download_file world_ok "https://x/test.mp4" "/work/input.mp4"
                 state_with_video).2 !! "/work/input.mp4"
     = Some (Bytes (concat [[Byte.x00; Byte.x01]; [Byte.x02]]))
  /\ (getsize world_ok "/work/input.mp4"
        (download_file world_ok "https://x/test.mp4" "/work/input.mp4"
           state_with_video).2).1
     = Ret (total_bytes [[Byte.x00; Byte.x01]; [Byte.x02]])
  /\ (forall p, p <> "/work/input.mp4" ->
        st_files (download_file world_ok "https://x/test.mp4" "/work/input.mp4"
                    state_with_video).2 !! p
        = st_files state_with_video !! p)
  /\ new_events state_with_video
       (download_file world_ok "https://x/test.mp4" "/work/input.mp4" state_with_video).2
     = [EvStage Fetch; EvHttpGet "https://x/test.mp4"].
Proof.
  apply (download_file_stores_body world_ok "https://x/test.mp4" "/work/input.mp4"
           state_with_video [[Byte.x00; Byte.x01]; [Byte.x02]]).
  - reflexivity.
  - reflexivity.
Defined.

(** X2. When the request itself fails (no connection, or a status that
    [raise_for_status] rejects) the error is raised before [dest] is opened:
    the files on disk are exactly what they were. *)
Theorem download_file_rejected_writes_nothing w url dest s e :
  w_http_get w url = Raise e ->
  (download_file w url dest s).1 = Raise e
  /\ st_files (download_file w url dest s).2 = st_files s
  /\ st_dirs (download_file w url dest s).2 = st_dirs s.
Proof.
  intros Hget. unfold download_file. run_prims. rewrite Hget. run_prims. auto.
Qed.

Lemma download_file_rejected_writes_nothing_witness :
  (download_file world_http_404 "https://x/test.mp4" "/work/input.mp4"
     state_with_video).1 = Raise (External "HTTPError" "404 Client Error")
  /\ st_files (download_file world_http_404 "https://x/test.mp4" "/work/input.mp4"
                 state_with_video).2 = st_files state_with_video
  /\ st_dirs (download_file world_http_404 "https://x/test.mp4" "/work/input.mp4"
                state_with_video).2 = st_dirs state_with_video.
Proof.
  apply (download_file_rejected_writes_nothing world_http_404 "https://x/test.mp4"
           "/work/input.mp4" state_with_video
           (External "HTTPError" "404 Client Error")).
  reflexivity.
Defined.

(** X3. When [dest] can be opened for writing and the body stream then breaks
    off after some chunks, the error is raised and [dest] is left behind
    holding just the chunks that arrived: a truncated file; [download_file]
    does not delete it. *)
Theorem download_file_interrupted_leaves_partial_file w url dest s chunks e :
  w_http_get w url = Ret (chunks, Some e) ->
  w_open_error w dest = None ->
  (download_file w url dest s).1 = Raise e
  /\ st_files (download_file w url dest s).2 !! dest = Some (Bytes (concat chunks)).
Proof.
  intros Hget Hopen. unfold download_file. run_prims. rewrite Hget. run_prims.
  rewrite Hopen. run_prims.
  split; [reflexivity | apply lookup_insert_eq].
Qed.

Lemma download_file_interrupted_leaves_partial_file_witness :
  (download_file world_stream_cut "https://x/test.mp4" "/work/input.mp4"
     empty_state).1
    = Raise (External "ChunkedEncodingError" "Connection broken")
  /\ st_files (download_file world_stream_cut "https://x/test.mp4" "/work/input.mp4"
                 empty_state).2 !! "/work/input.mp4"
     = Some (Bytes (concat [[Byte.x00; Byte.x01]])).
Proof.
  apply (download_file_interrupted_leaves_partial_file world_stream_cut
           "https://x/test.mp4" "/work/input.mp4" empty_state
           [[Byte.x00; Byte.x01]]
           (External "ChunkedEncodingError" "Connection broken")).
  - reflexivity.
  - reflexivity.
Defined.

(** X27. When the request succeeds but [dest] cannot be opened for writing,
    the error of [open] is raised: the request has been made, but none of the
    body is stored and the files on disk are what they were. *)
Theorem download_file_unwritable_dest w url dest s chunks interrupted e :
  w_http_get w url = Ret (chunks, interrupted) ->
  w_open_error w dest = Some e ->
  (download_file w url dest s).1 = Raise e
  /\ st_files (download_file w url dest s).2 = st_files s
  /\ new_events s (download_file w url dest s).2 = [EvStage Fetch; EvHttpGet url].
Proof.
  intros Hget Hopen. split; [|split].
  - unfold download_file. run_prims. rewrite Hget. run_prims. now rewrite Hopen.
  - unfold download_file. run_prims. rewrite Hget. run_prims. now rewrite Hopen.
  - apply new_events_app, download_file_trace.
Qed.

Lemma download_file_unwritable_dest_witness :
  (download_file world_no_empty_path "https://x/test.mp4" "" state_with_video).1
    = Raise (FileNotFoundError "")
  /\ st_files (download_file world_no_empty_path "https://x/test.mp4" ""
                 state_with_video).2 = st_files state_with_video
  /\ new_events state_with_video
       (download_file world_no_empty_path "https://x/test.mp4" "" state_with_video).2
     = [EvStage Fetch; EvHttpGet "https://x/test.mp4"].
Proof.
  apply (download_file_unwritable_dest world_no_empty_path "https://x/test.mp4" ""
           state_with_video [[Byte.x00; Byte.x01]; [Byte.x02]] None
           (FileNotFoundError "")).
  - reflexivity.
  - reflexivity.
Defined.

(** ** Upscale *)

(** X4. With a string model, [run_realesrgan] returns exactly when the
    executable exits with status 0, and what it returns is then the output
    path it was given, never anything else. *)
Theorem run_realesrgan_returns_iff_exit_zero w input_path output_path scale m s :
  ((run_realesrgan w input_path output_path scale (PStr m) s).1 = Ret output_path
   <-> exists err,
        (w_subprocess w (realesrgan_cmd input_path output_path m (py_str scale))).1
        = Exited 0 err)
  /\ (forall p, (run_realesrgan w input_path output_path scale (PStr m) s).1 = Ret p ->
        p = output_path).
Proof.
  unfold run_realesrgan. run_prims.
  destruct (w_subprocess w _) as [[rc err| |e] writes]; run_prims.
  - destruct (Z.eqb_spec rc 0) as [->|Hrc]; run_prims.
    + split; [split; eauto | now intros p [= <-]].
    + split; [split; [discriminate | intros [err' [= H _]]; now destruct Hrc]
             | discriminate].
  - split; [split; [discriminate | intros [err [=]]] | discriminate].
  - split; [split; [discriminate | intros [err [=]]] | discriminate].
Qed.

(** X5. A non-zero exit status of the executable becomes a [RuntimeError]
    whose message is ["Real-ESRGAN failed: "] followed by the captured
    standard error, unaltered. *)
Theorem run_realesrgan_reports_stderr w input_path output_path scale m s rc err writes :
  w_subprocess w (realesrgan_cmd input_path output_path m (py_str scale))
    = (Exited rc err, writes) ->
  rc <> 0 ->
  (run_realesrgan w input_path output_path scale (PStr m) s).1
    = Raise (RuntimeError ("Real-ESRGAN failed: " +:+ err)).
Proof.
  intros Hsub Hrc. unfold run_realesrgan. run_prims. rewrite Hsub. run_prims.
  apply Z.eqb_neq in Hrc. now rewrite Hrc.
Qed.

Lemma run_realesrgan_reports_stderr_witness :
  (run_realesrgan world_upscale_fails "/work/input.mp4" "/work/upscaled.mp4"
     (PInt 4) (PStr "realesr-general-x4v3") empty_state).1
    = Raise (RuntimeError "Real-ESRGAN failed: boom").
Proof.
  apply (run_realesrgan_reports_stderr world_upscale_fails "/work/input.mp4"
           "/work/upscaled.mp4" (PInt 4) "realesr-general-x4v3" empty_state
           1 "boom" []).
  - reflexivity.
  - discriminate.
Defined.

Lemma pipeline_at_upscale w ji tmpdir url :
  pipeline w ji tmpdir url =
    [stage_fetch w tmpdir url]
    ++ (Upscale, fun _ : string =>
          run_realesrgan w (input_path_of w tmpdir url) (upscaled_path_of tmpdir)
            (job_scale ji) (job_model ji);;
          mret (upscaled_path_of tmpdir))
       :: ((if truthy (job_face_restore ji) then [stage_face w tmpdir] else [])
           ++ (if truthy (job_audio_enhance ji) then [stage_audio w tmpdir] else [])
           ++ [stage_publish w ji]).
Proof. unfold pipeline, before_audio. now rewrite <- app_assoc. Qed.

Lemma fetch_chain w tmpdir url s c s1 :
  download_file w url (input_path_of w tmpdir url) s = (Ret c, s1) ->
  run_chain [stage_fetch w tmpdir url] "" s = (Ret c, s1).
Proof.
  intros Hdl. cbn [run_chain stage_fetch]. now rewrite (bind_Ret _ _ _ _ _ Hdl).
Qed.

(** X6. The upscale stage has no soft-fail either for its time limit: when
    the executable is still running after 7200 seconds the handler ends with
    [TimeoutExpired] for that command, having entered Fetch and Upscale only. *)
Theorem upscale_timeout_is_fatal w job ji url s m c s1 writes :
  accepted job ji url ->
  job_model ji = PStr m ->
  download_file w url (input_path_of w (w_mkdtemp w) url) (acquire w s) = (Ret c, s1) ->
  w_subprocess w (realesrgan_cmd (input_path_of w (w_mkdtemp w) url)
                    (upscaled_path_of (w_mkdtemp w)) m (py_str (job_scale ji)))
    = (TimedOut, writes) ->
  (handler w job s).1
    = Raise (TimeoutExpired
               (realesrgan_cmd (input_path_of w (w_mkdtemp w) url)
                  (upscaled_path_of (w_mkdtemp w)) m (py_str (job_scale ji))) 7200)
  /\ stages_of (new_events s (handler w job s).2) = [Fetch; Upscale].
Proof.
  intros Hacc Hmodel Hdl Hsub.
  destruct ((run_realesrgan w (input_path_of w (w_mkdtemp w) url)
               (upscaled_path_of (w_mkdtemp w)) (job_scale ji) (job_model ji);;
             mret (upscaled_path_of (w_mkdtemp w))) s1) as [r s2] eqn:Hup.
  assert (Hr : r = Raise (TimeoutExpired
                 (realesrgan_cmd (input_path_of w (w_mkdtemp w) url)
                    (upscaled_path_of (w_mkdtemp w)) m (py_str (job_scale ji))) 7200)).
  { rewrite Hmodel in Hup. unfold run_realesrgan in Hup. run_prims.
    revert Hup. run_prims. rewrite Hsub. now intros [= <- _]. }
  subst r.
  destruct (handler_raise_at w job ji url s _ Upscale _ _ c s1 _ s2 Hacc
              (pipeline_at_upscale _ _ _ _) (fetch_chain _ _ _ _ _ _ Hdl) Hup)
    as [Hh Hst].
  split; [now rewrite Hh | exact Hst].
Qed.

Lemma upscale_timeout_is_fatal_witness :
  (handler world_upscale_timeout (job_of input_default) empty_state).1
    = Raise (TimeoutExpired
               (realesrgan_cmd "/tmp/tmpjob/input.mp4" "/tmp/tmpjob/upscaled.mp4"
                  "realesr-general-x4v3" "4") 7200)
  /\ stages_of (new_events empty_state
                  (handler world_upscale_timeout (job_of input_default) empty_state).2)
     = [Fetch; Upscale].
Proof.
  apply (upscale_timeout_is_fatal world_upscale_timeout (job_of input_default)
           input_default "https://x/test.mp4" empty_state "realesr-general-x4v3"
           "/tmp/tmpjob/input.mp4"
           (download_file world_upscale_timeout "https://x/test.mp4"
              "/tmp/tmpjob/input.mp4" (acquire world_upscale_timeout empty_state)).2
           []).
  - split; [|split]; [vm_compute; reflexivity | vm_compute; reflexivity | discriminate].
  - vm_compute. reflexivity.
  - vm_compute. reflexivity.
  - reflexivity.
Defined.

(** X7. A job whose [model] is not a string fails in the upscale stage with a
    [TypeError], raised while the command line is being joined for printing:
    the executable is never started, and the only call made to the outside
    during the whole job is the download. *)
Theorem non_string_model_fails_before_the_executable_runs w job ji url s c s1 :
  accepted job ji url ->
  (forall m, job_model ji <> PStr m) ->
  download_file w url (input_path_of w (w_mkdtemp w) url) (acquire w s) = (Ret c, s1) ->
  (handler w job s).1 = Raise TypeError
  /\ new_events s (handler w job s).2
     = [EvMkdtemp (w_mkdtemp w); EvStage Fetch; EvHttpGet url; EvStage Upscale;
        EvRmtree (w_mkdtemp w)].
Proof.
  intros Hacc Hmodel Hdl.
  set (s2 := State (st_dirs s1) (st_files s1) (st_open s1)
                   (st_trace s1 ++ [EvStage Upscale])).
  assert (Hup : (run_realesrgan w (input_path_of w (w_mkdtemp w) url)
                   (upscaled_path_of (w_mkdtemp w)) (job_scale ji) (job_model ji);;
                 mret (upscaled_path_of (w_mkdtemp w))) s1 = (Raise TypeError, s2)).
  { unfold run_realesrgan. run_prims.
    destruct (job_model ji) as [|b|z|m] eqn:Hm; try reflexivity.
    now destruct (Hmodel m). }
  destruct (handler_raise_at w job ji url s _ Upscale _ _ c s1 _ s2 Hacc
              (pipeline_at_upscale _ _ _ _) (fetch_chain _ _ _ _ _ _ Hdl) Hup)
    as [Hh _].
  split; [now rewrite Hh|].
  apply new_events_app. rewrite Hh. cbn [snd rmtree st_trace]. subst s2.
  cbn [st_trace].
  pose proof (download_file_trace w url (input_path_of w (w_mkdtemp w) url)
                (acquire w s)) as Ht.
  rewrite Hdl in Ht. cbn [snd acquire st_trace] in Ht.
  rewrite Ht, <- !app_assoc. reflexivity.
Qed.

Lemma non_string_model_fails_before_the_executable_runs_witness :
  (handler world_ok (job_of input_bad_model) empty_state).1 = Raise TypeError
  /\ new_events empty_state (handler world_ok (job_of input_bad_model) empty_state).2
     = [EvMkdtemp "/tmp/tmpjob"; EvStage Fetch; EvHttpGet "https://x/test.mp4";
        EvStage Upscale; EvRmtree "/tmp/tmpjob"].
Proof.
  apply (non_string_model_fails_before_the_executable_runs world_ok
           (job_of input_bad_model) input_bad_model "https://x/test.mp4" empty_state
           "/tmp/tmpjob/input.mp4"
           (download_file world_ok "https://x/test.mp4" "/tmp/tmpjob/input.mp4"
              (acquire world_ok empty_state)).2).
  - split; [|split]; [vm_compute; reflexivity | vm_compute; reflexivity | discriminate].
  - intros m. vm_compute. discriminate.
  - vm_compute. reflexivity.
Defined.

(** ** Order of the stages *)

Lemma pipeline_stage_names w ji tmpdir url :
  map fst (pipeline w ji tmpdir url) = expected_stages ji.
Proof.
  unfold pipeline, before_audio, expected_stages.
  now destruct (truthy (job_face_restore ji)); destruct (truthy (job_audio_enhance ji)).
Qed.

Lemma run_chain_stages l : announced l -> forall c s,
  exists evs rest,
    st_trace (run_chain l c s).2 = st_trace s ++ evs
    /\ map fst l = stages_of evs ++ rest
    /\ (forall x, (run_chain l c s).1 = Ret x -> rest = []).
Proof.
  induction 1 as [|[n f] l Hf _ IH]; intros c s.
  - exists [], []. cbn. rewrite app_nil_r. auto.
  - cbn [run_chain]. destruct (Hf c s) as (evs1 & Ht1 & Hio1). cbn [fst snd] in *.
    unfold mbind, M_bind. destruct (f c s) as [[a|e] s1]; cbn [snd] in *.
    + destruct (IH a s1) as (evs2 & rest & Ht2 & Hs2 & Hr2).
      exists (EvStage n :: evs1 ++ evs2), rest. split; [|split].
      * rewrite Ht2, Ht1, <- app_assoc. reflexivity.
      * change (stages_of (EvStage n :: evs1 ++ evs2))
          with (n :: stages_of (evs1 ++ evs2)).
        rewrite stages_of_app, (io_only_stages _ Hio1). cbn [map fst app].
        now rewrite Hs2.
      * exact Hr2.
    + exists (EvStage n :: evs1), (map fst l). split; [exact Ht1|split].
      * change (stages_of (EvStage n :: evs1)) with (n :: stages_of evs1).
        now rewrite (io_only_stages _ Hio1).
      * discriminate.
Qed.

Lemma handler_stages w job ji url s :
  accepted job ji url ->
  (exists rest,
     expected_stages ji = stages_of (new_events s (handler w job s).2) ++ rest)
  /\ (forall r, (handler w job s).1 = Ret r ->
        stages_of (new_events s (handler w job s).2) = expected_stages ji).
Proof.
  intros Hacc. rewrite (handler_pipeline _ _ _ _ _ Hacc). cbn [fst snd].
  destruct (run_chain_stages _ (pipeline_announced w ji (w_mkdtemp w) url) ""
              (acquire w s)) as (evs & rest & Ht & Hs & Hr).
  rewrite pipeline_stage_names in Hs.
  assert (Hnew : stages_of (new_events s
                   (rmtree (w_mkdtemp w)
                      (run_chain (pipeline w ji (w_mkdtemp w) url) "" (acquire w s)).2))
                 = stages_of evs).
  { erewrite new_events_app.
    2:{ cbn [rmtree st_trace]. rewrite Ht. cbn [acquire st_trace].
        rewrite <- !app_assoc. reflexivity. }
    change (stages_of (evs ++ [EvRmtree (w_mkdtemp w)]) = stages_of evs).
    rewrite stages_of_app. apply app_nil_r. }
  rewrite Hnew. split; [now exists rest|].
  intros r Hfin.
  destruct (run_chain (pipeline w ji (w_mkdtemp w) url) "" (acquire w s)).1 as [x|e] eqn:Hx;
    [|discriminate].
  rewrite (Hr x eq_refl), app_nil_r in Hs. now symmetry.
Qed.

(** X8. The stages of an accepted job are entered strictly in the order
    Fetch, Upscale, Face Restore (if enabled), Audio Enhance (if enabled),
    Publish: the stages entered by any run, failed or not, are an initial
    segment of that list, and a run that returns a result has entered all of
    them, each once. *)
Theorem handler_enters_stages_in_order w job ji url s :
  accepted job ji url ->
  (exists rest,
     expected_stages ji = stages_of (new_events s (handler w job s).2) ++ rest)
  /\ (forall r, (handler w job s).1 = Ret r ->
        stages_of (new_events s (handler w job s).2) = expected_stages ji).
Proof. apply handler_stages. Qed.

Lemma handler_enters_stages_in_order_witness :
  (exists rest,
     expected_stages input_default
     = stages_of (new_events empty_state
                    (handler world_restorer_fails (job_of input_default) empty_state).2)
       ++ rest)
  /\ (forall r,
        (handler world_restorer_fails (job_of input_default) empty_state).1 = Ret r ->
        stages_of (new_events empty_state
                     (handler world_restorer_fails (job_of input_default) empty_state).2)
        = expected_stages input_default).
Proof.
  apply (handler_enters_stages_in_order world_restorer_fails (job_of input_default)
           input_default "https://x/test.mp4" empty_state).
  split; [|split]; [vm_compute; reflexivity | vm_compute; reflexivity | discriminate].
Defined.

(** The two runs of the sample job: all five stages, and three when the
    restorer fails. *)
Example stages_of_a_successful_run :
  stages_of (new_events empty_state
               (handler world_ok (job_of input_default) empty_state).2)
  = [Fetch; Upscale; FaceRestore; AudioEnhance; Publish].
Proof. vm_compute. reflexivity. Qed.

Example stages_of_a_failed_run :
  stages_of (new_events empty_state
               (handler world_restorer_fails (job_of input_default) empty_state).2)
  = [Fetch; Upscale; FaceRestore].
Proof. vm_compute. reflexivity. Qed.

(** X9. An optional stage is entered only if its flag is truthy: a job whose
    [face_restore] (or [audio_enhance]) is false, 0, an empty string or null
    never enters Face Restore (or Audio Enhance), on any run. *)
Theorem optional_stage_needs_its_flag w job ji url s :
  accepted job ji url ->
  (In FaceRestore (stages_of (new_events s (handler w job s).2)) ->
     truthy (job_face_restore ji) = true)
  /\ (In AudioEnhance (stages_of (new_events s (handler w job s).2)) ->
        truthy (job_audio_enhance ji) = true).
Proof.
  intros Hacc.
  destruct (handler_stages w job ji url s Hacc) as [[rest Hpre] _].
  assert (Hin : forall st, In st (stages_of (new_events s (handler w job s).2)) ->
                           In st (expected_stages ji)).
  { intros st H. rewrite Hpre. apply in_app_iff. now left. }
  unfold expected_stages in Hin.
  split; intros H; apply Hin in H;
    destruct (truthy (job_face_restore ji)); destruct (truthy (job_audio_enhance ji));
    cbn in H; intuition discriminate.
Qed.

Lemma optional_stage_needs_its_flag_witness :
  (In FaceRestore
      (stages_of (new_events empty_state
                    (handler world_ok (job_of input_no_faces) empty_state).2)) ->
     truthy (job_face_restore input_no_faces) = true)
  /\ (In AudioEnhance
         (stages_of (new_events empty_state
                       (handler world_ok (job_of input_no_faces) empty_state).2)) ->
        truthy (job_audio_enhance input_no_faces) = true).
Proof.
  apply (optional_stage_needs_its_flag world_ok (job_of input_no_faces) input_no_faces
           "https://x/test.mp4" empty_state).
  split; [|split]; [vm_compute; reflexivity | vm_compute; reflexivity | discriminate].
Defined.

(** A job that sends [face_restore: null] skips the stage, although leaving
    the field out would have enabled it. *)
Example null_face_restore_skips_the_stage :
  stages_of (new_events empty_state
               (handler world_ok (job_of input_no_faces) empty_state).2)
  = [Fetch; Upscale; AudioEnhance; Publish].
Proof. vm_compute. reflexivity. Qed.

(** ** What the handler returns *)

Lemma handler_returns_cases w job s r :
  (handler w job s).1 = Ret r ->
  (r = [("error", RStr "video_url required")]
   /\ acquires job = false
   /\ (handler w job s).2 = s)
  \/ (exists ji url result_url,
        accepted job ji url
        /\ r = [("video_url", RStr result_url);
                ("duration_secs", RFloat (w_elapsed w));
                ("scale", RVal (job_scale ji));
                ("face_restore", RVal (job_face_restore ji));
                ("audio_enhance", RVal (job_audio_enhance ji))]).
Proof.
  unfold acquires.
  destruct (job !! "input") as [[v|ji]|] eqn:Hin;
    [unfold handler; rewrite Hin; discriminate | | unfold handler; rewrite Hin; discriminate].
  unfold dict_get.
  destruct (ji !! "video_url") as [v|] eqn:Hurl; cbn [default id].
  2:{ unfold handler. rewrite Hin. unfold mbind, M_bind, mret, M_ret, dict_get.
      rewrite Hurl. cbn. intros [= <-]. now left. }
  destruct (truthy v) eqn:Htr.
  2:{ unfold handler. rewrite Hin. unfold mbind, M_bind, mret, M_ret, dict_get.
      rewrite Hurl. cbn [default id]. rewrite Htr. cbn. intros [= <-]. now left. }
  destruct v as [|b|z|url].
  - discriminate Htr.
  - unfold handler. rewrite Hin. unfold mbind, M_bind, mret, M_ret, dict_get.
    rewrite Hurl. cbn [default id]. rewrite Htr. discriminate.
  - unfold handler. rewrite Hin. unfold mbind, M_bind, mret, M_ret, dict_get.
    rewrite Hurl. cbn [default id]. rewrite Htr. discriminate.
  - assert (Hacc : accepted job ji url).
    { split; [exact Hin | split; [exact Hurl|]]. intros ->. discriminate Htr. }
    rewrite (handler_pipeline _ _ _ _ _ Hacc). cbn [fst].
    destruct (run_chain _ _ _).1 as [result_url|e]; cbn [finish]; [|discriminate].
    intros [= <-]. right. now exists ji, url, result_url.
Qed.

(** X10. The handler returns only two kinds of result: the one-entry error
    dict for a missing [video_url], with the state untouched, or the full
    five-entry record of an accepted job, whose [scale], [face_restore] and
    [audio_enhance] entries are the job's own values (or the defaults)
    unchanged.  No partial record is ever returned. *)
Theorem handler_result_shapes w job s r :
  (handler w job s).1 = Ret r ->
  (r = [("error", RStr "video_url required")]
   /\ acquires job = false
   /\ (handler w job s).2 = s)
  \/ (exists ji url result_url,
        accepted job ji url
        /\ r = [("video_url", RStr result_url);
                ("duration_secs", RFloat (w_elapsed w));
                ("scale", RVal (job_scale ji));
                ("face_restore", RVal (job_face_restore ji));
                ("audio_enhance", RVal (job_audio_enhance ji))]).
Proof. apply handler_returns_cases. Qed.

Lemma handler_result_shapes_witness :
  ([("video_url", RStr "file:///tmp/tmpjob/upscaled.mp4 (3000 bytes)");
    ("duration_secs", RFloat (12 # 10));
    ("scale", RVal (PInt 3));
    ("face_restore", RVal (PBool false));
    ("audio_enhance", RVal (PBool false))]
   = [("error", RStr "video_url required")]
   /\ acquires (job_of input_scale3) = false
   /\ (handler world_ok (job_of input_scale3) empty_state).2 = empty_state)
  \/ (exists ji url result_url,
        accepted (job_of input_scale3) ji url
        /\ [("video_url", RStr "file:///tmp/tmpjob/upscaled.mp4 (3000 bytes)");
            ("duration_secs", RFloat (12 # 10));
            ("scale", RVal (PInt 3));
            ("face_restore", RVal (PBool false));
            ("audio_enhance", RVal (PBool false))]
           = [("video_url", RStr result_url);
              ("duration_secs", RFloat (w_elapsed world_ok));
              ("scale", RVal (job_scale ji));
              ("face_restore", RVal (job_face_restore ji));
              ("audio_enhance", RVal (job_audio_enhance ji))]).
Proof.
  apply (handler_result_shapes world_ok (job_of input_scale3) empty_state).
  vm_compute. reflexivity.
Defined.

(** ** Rejected and malformed jobs *)

(** X11. Any falsy [video_url], not only a missing or empty one, is answered
    with the error dict before anything runs: JSON [null], [false] and [0]
    are treated like an absent field. *)
Theorem falsy_video_url_is_rejected w job ji v s :
  job !! "input" = Some (JObject ji) ->
  ji !! "video_url" = Some v ->
  truthy v = false ->
  handler w job s = (Ret [("error", RStr "video_url required")], s).
Proof.
  intros Hin Hurl Htr. unfold handler. rewrite Hin.
  unfold mbind, M_bind, mret, M_ret, dict_get. rewrite Hurl. cbn [default id].
  now rewrite Htr.
Qed.

Lemma falsy_video_url_is_rejected_witness :
  handler world_ok (job_of {["video_url" := PInt 0]}) empty_state
  = (Ret [("error", RStr "video_url required")], empty_state).
Proof.
  apply (falsy_video_url_is_rejected world_ok (job_of {["video_url" := PInt 0]})
           {["video_url" := PInt 0]} (PInt 0) empty_state).
  - vm_compute. reflexivity.
  - vm_compute. reflexivity.
  - reflexivity.
Defined.

(** X12. A truthy [video_url] that is not a string passes the validation: the
    workspace is acquired, [Path(video_url)] raises [TypeError] inside it, and
    the workspace is removed again; no stage is entered and nothing else is
    called. *)
Theorem non_string_video_url_fails_inside_the_workspace w job ji v s :
  job !! "input" = Some (JObject ji) ->
  ji !! "video_url" = Some v ->
  truthy v = true ->
  (forall u, v <> PStr u) ->
  handler w job s = (Raise TypeError, rmtree (w_mkdtemp w) (acquire w s))
  /\ new_events s (handler w job s).2
     = [EvMkdtemp (w_mkdtemp w); EvRmtree (w_mkdtemp w)].
Proof.
  intros Hin Hurl Htr Hstr.
  assert (Hh : handler w job s = (Raise TypeError, rmtree (w_mkdtemp w) (acquire w s))).
  { unfold handler. rewrite Hin. unfold mbind, M_bind, mret, M_ret, dict_get.
    rewrite Hurl. cbn [default id]. rewrite Htr. cbn [negb].
    destruct v as [|b|z|u]; try reflexivity. now destruct (Hstr u). }
  split; [exact Hh|]. rewrite Hh. apply new_events_app.
  cbn [snd rmtree acquire st_trace]. now rewrite <- app_assoc.
Qed.

Lemma non_string_video_url_fails_inside_the_workspace_witness :
  handler world_ok (job_of {["video_url" := PInt 7]}) empty_state
  = (Raise TypeError, rmtree "/tmp/tmpjob" (acquire world_ok empty_state))
  /\ new_events empty_state
       (handler world_ok (job_of {["video_url" := PInt 7]}) empty_state).2
     = [EvMkdtemp "/tmp/tmpjob"; EvRmtree "/tmp/tmpjob"].
Proof.
  apply (non_string_video_url_fails_inside_the_workspace world_ok
           (job_of {["video_url" := PInt 7]}) {["video_url" := PInt 7]} (PInt 7)
           empty_state).
  - vm_compute. reflexivity.
  - vm_compute. reflexivity.
  - reflexivity.
  - intros u. discriminate.
Defined.

(** X13. A job dict without an ["input"] entry is not answered with an error
    dict: [job["input"]] raises [KeyError], and the state is untouched. *)
Theorem missing_input_raises_key_error w job s :
  job !! "input" = None ->
  handler w job s = (Raise (KeyError "input"), s).
Proof. intros Hin. unfold handler. now rewrite Hin. Qed.

Lemma missing_input_raises_key_error_witness :
  handler world_ok {["id" := JScalar (PStr "job-1")]} empty_state
  = (Raise (KeyError "input"), empty_state).
Proof.
  apply (missing_input_raises_key_error world_ok {["id" := JScalar (PStr "job-1")]}
           empty_state).
  vm_compute. reflexivity.
Defined.

(** ** Defaults *)

Lemma handler_reads_six_fields w job job' ji ji' s :
  job !! "input" = Some (JObject ji) ->
  job' !! "input" = Some (JObject ji') ->
  dict_get ji' "video_url" PNone = dict_get ji "video_url" PNone ->
  dict_get ji' "scale" (PInt 4) = dict_get ji "scale" (PInt 4) ->
  dict_get ji' "model" (PStr REALESRGAN_MODEL) = dict_get ji "model" (PStr REALESRGAN_MODEL) ->
  dict_get ji' "face_restore" (PBool true) = dict_get ji "face_restore" (PBool true) ->
  dict_get ji' "audio_enhance" (PBool true) = dict_get ji "audio_enhance" (PBool true) ->
  dict_get ji' "upload_url" (PStr "") = dict_get ji "upload_url" (PStr "") ->
  handler w job' s = handler w job s.
Proof.
  intros Hin Hin' H1 H2 H3 H4 H5 H6. unfold handler. rewrite Hin, Hin'.
  unfold mbind at 1 3. unfold M_bind, mret at 1 3, M_ret.
  now rewrite H1, H2, H3, H4, H5, H6.
Qed.

Lemma dict_get_insert_default (ji : gmap string pyval) key dflt k d :
  ji !! key = None ->
  (k = key -> d = dflt) ->
  dict_get (<[key := dflt]> ji) k d = dict_get ji k d.
Proof.
  intros Hnone Hd. unfold dict_get. destruct (decide (key = k)) as [<-|Hne].
  - rewrite lookup_insert_eq, Hnone. cbn. symmetry. now apply Hd.
  - now rewrite lookup_insert_ne.
Qed.

(** X14. Leaving an optional field out of the job input is the same as
    sending its default: for [scale] 4, [model] "realesr-general-x4v3",
    [face_restore] and [audio_enhance] true, [upload_url] "", the handler
    behaves identically, result and effects, on the job with the field absent
    and on the job with the field set to that value. *)
Theorem absent_field_is_its_default w job ji key dflt s :
  job !! "input" = Some (JObject ji) ->
  In (key, dflt) field_defaults ->
  ji !! key = None ->
  handler w (<["input" := JObject (<[key := dflt]> ji)]> job) s = handler w job s.
Proof.
  intros Hin Hfield Hnone.
  apply (handler_reads_six_fields w job _ ji (<[key := dflt]> ji) s Hin
           (lookup_insert_eq _ _ _));
    apply dict_get_insert_default; try exact Hnone;
    intros Hk; subst key; cbn in Hfield;
    repeat (destruct Hfield as [Hfield|Hfield]; [now inversion Hfield|]);
    now destruct Hfield.
Qed.

Lemma absent_field_is_its_default_witness :
  handler world_ok
    (<["input" := JObject (<["scale" := PInt 4]> input_default)]> (job_of input_default))
    empty_state
  = handler world_ok (job_of input_default) empty_state.
Proof.
  apply (absent_field_is_its_default world_ok (job_of input_default) input_default
           "scale" (PInt 4) empty_state).
  - vm_compute. reflexivity.
  - left. reflexivity.
  - vm_compute. reflexivity.
Defined.

(** ** OpenCV objects *)

Lemma run_realesrgan_open w i o scale model s :
  st_open (run_realesrgan w i o scale model s).2 = st_open s.
Proof.
  unfold run_realesrgan. destruct model; run_prims; try reflexivity.
  destruct (w_subprocess w _) as [[rc err| |e] writes]; run_prims;
    [now destruct (negb (rc =? 0)) | reflexivity | reflexivity].
Qed.

Lemma enhance_audio_open w i o s :
  st_open (enhance_audio w i o s).2 = st_open s.
Proof.
  unfold enhance_audio. run_prims.
  destruct (w_subprocess w _) as [[rc err| |e] writes]; run_prims;
    [now destruct (negb (rc =? 0)) | reflexivity | reflexivity].
Qed.

Lemma upload_result_open w p url s :
  st_open (upload_result w p url s).2 = st_open s.
Proof.
  unfold upload_result. run_prims. destruct (truthy url); run_prims.
  - destruct (st_files s !! p) as [f|]; run_prims; [|reflexivity].
    destruct (w_http_put w url f); run_prims; [reflexivity|]. now destruct url.
  - now destruct (st_files s !! p) as [[b|v]|].
Qed.

(** Stages that, when they return, hold no more OpenCV objects than before. *)
Lemma pipeline_balanced w ji tmpdir url :
  Forall (fun nf => forall c s a s',
            nf.2 c s = (Ret a, s') -> st_open s' = st_open s)
         (pipeline w ji tmpdir url).
Proof.
  unfold pipeline, before_audio.
  destruct (truthy (job_face_restore ji)); destruct (truthy (job_audio_enhance ji));
    cbn [app];
    repeat first [ apply Forall_nil_2 | apply Forall_cons_2 ];
    intros c s a s';
    cbn [fst snd stage_fetch stage_upscale stage_face stage_audio stage_publish];
    intros Hrun.
  all: try (pose proof (download_file_open w url (input_path_of w tmpdir url) s) as H;
            rewrite Hrun in H; exact H).
  all: try (pose proof (enhance_audio_open w c (audio_path_of tmpdir) s) as H;
            rewrite Hrun in H; exact H).
  all: try (pose proof (upload_result_open w c (job_upload_url ji) s) as H;
            rewrite Hrun in H; exact H).
  all: unfold mbind, M_bind, mret, M_ret in Hrun.
  all: try (pose proof (run_realesrgan_open w (input_path_of w tmpdir url)
                          (upscaled_path_of tmpdir) (job_scale ji) (job_model ji) s) as H;
            destruct (run_realesrgan w _ _ _ _ s) as [[x|e] s1]; [|discriminate];
            injection Hrun as _ <-; exact H).
  all: destruct (restore_faces_video w c (restored_path_of tmpdir) s) as [[x|e] s1] eqn:Hr;
    [|discriminate]; injection Hrun as _ <-;
    exact (restore_releases_on_return _ _ _ _ _ _ Hr).
Qed.

Lemma run_chain_balanced l :
  Forall (fun nf => forall c s a s',
            nf.2 c s = (Ret a, s') -> st_open s' = st_open s) l ->
  forall c s a s', run_chain l c s = (Ret a, s') -> st_open s' = st_open s.
Proof.
  induction 1 as [|[n f] l Hf _ IH]; intros c s a s'.
  - now intros [= _ <-].
  - cbn [run_chain]. unfold mbind, M_bind.
    destruct (f c s) as [[x|e] s1] eqn:Hfx; [|discriminate].
    intros Hrun. rewrite (IH _ _ _ _ Hrun). exact (Hf _ _ _ _ Hfx).
Qed.

(** X15. A job that returns a result leaves no decoder or encoder behind:
    the OpenCV objects held after the handler are those held before it. *)
Theorem successful_job_releases_codecs w job s r :
  (handler w job s).1 = Ret r ->
  st_open (handler w job s).2 = st_open s.
Proof.
  intros Hret.
  destruct (handler_returns_cases w job s r Hret)
    as [(_ & _ & Hs) | (ji & url & result_url & Hacc & _)].
  - now rewrite Hs.
  - rewrite (handler_pipeline _ _ _ _ _ Hacc) in *. cbn [fst snd] in *.
    destruct (run_chain (pipeline w ji (w_mkdtemp w) url) "" (acquire w s))
      as [[x|e] s2] eqn:Hrun; [|discriminate].
    cbn [snd rmtree st_open].
    exact (run_chain_balanced _ (pipeline_balanced _ _ _ _) _ _ _ _ Hrun).
Qed.

Lemma successful_job_releases_codecs_witness :
  st_open (handler world_ok (job_of input_default) empty_state).2 = st_open empty_state.
Proof.
  apply (successful_job_releases_codecs world_ok (job_of input_default) empty_state
           [("video_url", RStr "file:///tmp/tmpjob/audio_enhanced.mp4 (4 bytes)");
            ("duration_secs", RFloat (12 # 10));
            ("scale", RVal (PInt 4));
            ("face_restore", RVal (PBool true));
            ("audio_enhance", RVal (PBool true))]).
  vm_compute. reflexivity.
Defined.

(** ** Face restoration: edge cases and effects *)

(** X16. [restore_faces_video] never checks whether the input opened.  On an
    input that is missing or is not a video it makes no inference call and
    returns the output path as if it had succeeded, with nothing left open. *)
Theorem restore_on_unreadable_input_returns w input_path output_path s :
  w_gfpgan_init w = None ->
  decode w s input_path = None ->
  (restore_faces_video w input_path output_path s).1 = Ret output_path
  /\ new_events s (restore_faces_video w input_path output_path s).2
     = [EvStage FaceRestore; EvGfpganInit]
  /\ st_open (restore_faces_video w input_path output_path s).2 = st_open s.
Proof.
  intros Hinit Hdec. rewrite restore_faces_video_spec by exact Hinit.
  rewrite Hdec. cbn [fst snd st_open]. split; [reflexivity|]. split; [|reflexivity].
  now apply new_events_app.
Qed.

Lemma restore_on_unreadable_input_returns_witness :
  (restore_faces_video world_ok "/work/missing.mp4" "/work/restored.mp4"
     state_with_video).1 = Ret "/work/restored.mp4"
  /\ new_events state_with_video
       (restore_faces_video world_ok "/work/missing.mp4" "/work/restored.mp4"
          state_with_video).2
     = [EvStage FaceRestore; EvGfpganInit]
  /\ st_open (restore_faces_video world_ok "/work/missing.mp4" "/work/restored.mp4"
                state_with_video).2 = st_open state_with_video.
Proof.
  apply (restore_on_unreadable_input_returns world_ok "/work/missing.mp4"
           "/work/restored.mp4" state_with_video).
  - reflexivity.
  - vm_compute. reflexivity.
Defined.

(** X17. When the restorer cannot be loaded (the import or the constructor
    raises), the stage fails before any video object exists: no file is
    created or changed and nothing is held. *)
Theorem restore_without_restorer_touches_nothing w input_path output_path s e :
  w_gfpgan_init w = Some e ->
  (restore_faces_video w input_path output_path s).1 = Raise e
  /\ st_files (restore_faces_video w input_path output_path s).2 = st_files s
  /\ st_open (restore_faces_video w input_path output_path s).2 = st_open s.
Proof.
  intros Hinit. unfold restore_faces_video. rewrite Hinit. run_prims. auto.
Qed.

Lemma restore_without_restorer_touches_nothing_witness :
  (restore_faces_video world_no_gfpgan "/work/upscaled.mp4" "/work/restored.mp4"
     state_with_video).1
    = Raise (External "FileNotFoundError" "/models/GFPGANv1.4.pth")
  /\ st_files (restore_faces_video world_no_gfpgan "/work/upscaled.mp4"
                 "/work/restored.mp4" state_with_video).2
     = st_files state_with_video
  /\ st_open (restore_faces_video world_no_gfpgan "/work/upscaled.mp4"
                "/work/restored.mp4" state_with_video).2
     = st_open state_with_video.
Proof.
  apply (restore_without_restorer_touches_nothing world_no_gfpgan "/work/upscaled.mp4"
           "/work/restored.mp4" state_with_video
           (External "FileNotFoundError" "/models/GFPGANv1.4.pth")).
  reflexivity.
Defined.

Lemma inference_calls_cons n f rest :
  inference_calls n (f :: rest) = EvEnhance n f :: inference_calls (S n) rest.
Proof.
  unfold inference_calls. cbn [imap]. rewrite Nat.add_0_r. f_equal.
  apply imap_ext. intros i x _. cbn. now rewrite Nat.add_succ_r.
Qed.

Lemma loop_events_complete w pending : forall n,
  (restored_prefix w n pending).2 = None ->
  loop_events w n pending = inference_calls n pending.
Proof.
  induction pending as [|f rest IH]; intros n; [reflexivity|].
  rewrite inference_calls_cons. cbn [restored_prefix loop_events].
  destruct (w_enhance w n f); cbn [snd]; [|discriminate].
  intros H. now rewrite IH.
Qed.

(** X18. When the stage returns, the restorer has been called exactly once
    for each frame of the input, in stream order and on that frame; apart
    from loading the restorer these are the only calls the stage makes. *)
Theorem restore_calls_restorer_once_per_frame w input_path output_path s v :
  decode w s input_path = Some v ->
  (restore_faces_video w input_path output_path s).1 = Ret output_path ->
  new_events s (restore_faces_video w input_path output_path s).2
  = EvStage FaceRestore :: EvGfpganInit :: inference_calls 0 (v_frames v).
Proof.
  intros Hdec. destruct (w_gfpgan_init w) as [e|] eqn:Hinit.
  - unfold restore_faces_video. rewrite Hinit. run_prims. discriminate.
  - rewrite restore_faces_video_spec by exact Hinit. rewrite Hdec.
    cbn [fst snd cap_frames]. unfold restore_outcome, loop_outcome. cbn [cap_frames].
    destruct (restored_prefix w 0 (v_frames v)).2 eqn:Hp; [discriminate|].
    intros _. apply new_events_app. cbn [st_trace].
    now rewrite (loop_events_complete _ _ _ Hp).
Qed.

Lemma restore_calls_restorer_once_per_frame_witness :
  new_events state_with_video
    (restore_faces_video world_ok "/work/upscaled.mp4" "/work/restored.mp4"
       state_with_video).2
  = EvStage FaceRestore :: EvGfpganInit :: inference_calls 0 (v_frames sample_video).
Proof.
  apply (restore_calls_restorer_once_per_frame world_ok "/work/upscaled.mp4"
           "/work/restored.mp4" state_with_video sample_video).
  - vm_compute. reflexivity.
  - vm_compute. reflexivity.
Defined.

(** X19. The only file [restore_faces_video] creates or changes is the one at
    its output path; every other file, the input video included when the two
    paths differ, is as it was, whether the stage returns or raises. *)
Theorem restore_writes_only_its_output w input_path output_path s p :
  p <> output_path ->
  st_files (restore_faces_video w input_path output_path s).2 !! p = st_files s !! p.
Proof.
  intros Hp. destruct (w_gfpgan_init w) as [e|] eqn:Hinit.
  - unfold restore_faces_video. rewrite Hinit. run_prims. reflexivity.
  - rewrite restore_faces_video_spec by exact Hinit. cbn [snd st_files].
    now apply lookup_insert_ne.
Qed.

Lemma restore_writes_only_its_output_witness :
  st_files (restore_faces_video world_restorer_fails "/work/upscaled.mp4"
              "/work/restored.mp4" state_with_video).2 !! "/work/upscaled.mp4"
  = st_files state_with_video !! "/work/upscaled.mp4".
Proof.
  apply (restore_writes_only_its_output world_restorer_fails "/work/upscaled.mp4"
           "/work/restored.mp4" state_with_video "/work/upscaled.mp4").
  discriminate.
Defined.

Lemma restored_prefix_failure w pending : forall n e,
  (restored_prefix w n pending).2 = Some e ->
  exists f,
    pending !! length (restored_prefix w n pending).1 = Some f
    /\ w_enhance w (n + length (restored_prefix w n pending).1) f = Raise e
    /\ loop_events w n pending
       = take (S (length (restored_prefix w n pending).1)) (inference_calls n pending).
Proof.
  induction pending as [|f rest IH]; intros n e; [discriminate|].
  rewrite inference_calls_cons. cbn [restored_prefix loop_events].
  destruct (w_enhance w n f) as [g|e0] eqn:He; cbn [fst snd length].
  - intros H. destruct (IH _ _ H) as (f' & Hf' & Hraise & Hev).
    exists f'. split; [exact Hf'|]. split; [now rewrite Nat.add_succ_r|].
    cbn [take]. now rewrite Hev.
  - intros [= <-]. exists f. rewrite Nat.add_0_r. split; [reflexivity|].
    split; [exact He|]. cbn [take]. now rewrite take_0.
Qed.

(** X20. When an inference call raises, the loop stops there: the failing
    call is on the first frame the restorer rejects, the frames before it
    have been written and no more, and no later frame is handed to the
    restorer. *)
Theorem restore_stops_at_first_failure w input_path output_path s v e :
  w_gfpgan_init w = None ->
  decode w s input_path = Some v ->
  (restore_faces_video w input_path output_path s).1 = Raise e ->
  exists k f v',
    v_frames v !! k = Some f
    /\ w_enhance w k f = Raise e
    /\ st_files (restore_faces_video w input_path output_path s).2 !! output_path
       = Some (Mp4v v')
    /\ length (v_frames v') = k
    /\ new_events s (restore_faces_video w input_path output_path s).2
       = EvStage FaceRestore :: EvGfpganInit
           :: take (S k) (inference_calls 0 (v_frames v)).
Proof.
  intros Hinit Hdec. rewrite restore_faces_video_spec by exact Hinit. rewrite Hdec.
  cbn [fst snd st_files cap_frames]. unfold restore_outcome, loop_outcome.
  cbn [cap_frames].
  destruct (restored_prefix w 0 (v_frames v)).2 as [e0|] eqn:Hp; [|discriminate].
  intros [= <-]. destruct (restored_prefix_failure _ _ _ _ Hp) as (f & Hf & Hraise & Hev).
  exists (length (restored_prefix w 0 (v_frames v)).1), f. eexists.
  split; [exact Hf|]. split; [exact Hraise|]. split; [apply lookup_insert_eq|].
  split; [reflexivity|].
  apply new_events_app. cbn [st_trace]. now rewrite Hev.
Qed.

Lemma restore_stops_at_first_failure_witness :
  exists k f v',
    v_frames sample_video !! k = Some f
    /\ fails_at 1 k f = Raise (External "RuntimeError" "CUDA out of memory")
    /\ st_files (restore_faces_video world_restorer_fails "/work/upscaled.mp4"
                   "/work/restored.mp4" state_with_video).2 !! "/work/restored.mp4"
       = Some (Mp4v v')
    /\ length (v_frames v') = k
    /\ new_events state_with_video
         (restore_faces_video world_restorer_fails "/work/upscaled.mp4"
            "/work/restored.mp4" state_with_video).2
       = EvStage FaceRestore :: EvGfpganInit
           :: take (S k) (inference_calls 0 (v_frames sample_video)).
Proof.
  apply (restore_stops_at_first_failure world_restorer_fails "/work/upscaled.mp4"
           "/work/restored.mp4" state_with_video sample_video
           (External "RuntimeError" "CUDA out of memory")).
  - reflexivity.
  - vm_compute. reflexivity.
  - vm_compute. reflexivity.
Defined.

(** ** Publish: edge cases *)

(** X21. If the artifact is not on disk, [upload_result] raises
    [FileNotFoundError] for its path whether or not a destination was given,
    and nothing is sent. *)
Theorem upload_result_missing_artifact w file_path url s :
  st_files s !! file_path = None ->
  (upload_result w file_path url s).1 = Raise (FileNotFoundError file_path)
  /\ new_events s (upload_result w file_path url s).2 = [EvStage Publish].
Proof.
  intros Hf. unfold upload_result. run_prims. destruct (truthy url); run_prims;
    rewrite Hf; (split; [reflexivity | now apply new_events_app]).
Qed.

Lemma upload_result_missing_artifact_witness :
  (upload_result world_ok "/work/nothing.mp4" (PStr "https://bucket/out.mp4")
     state_with_video).1 = Raise (FileNotFoundError "/work/nothing.mp4")
  /\ new_events state_with_video
       (upload_result world_ok "/work/nothing.mp4" (PStr "https://bucket/out.mp4")
          state_with_video).2 = [EvStage Publish].
Proof.
  apply (upload_result_missing_artifact world_ok "/work/nothing.mp4"
           (PStr "https://bucket/out.mp4") state_with_video).
  vm_compute. reflexivity.
Defined.

(** X22. [upload_result] sends at most what it was asked to: a PUT happens
    only when a destination was supplied and the artifact exists, and then it
    is a PUT of that artifact to that destination. *)
Theorem upload_result_puts_only_to_the_destination w file_path url s u path :
  In (EvHttpPut u path) (new_events s (upload_result w file_path url s).2) ->
  truthy url = true /\ u = url /\ path = file_path /\ is_Some (st_files s !! file_path).
Proof.
  unfold upload_result. run_prims. destruct (truthy url) eqn:Htr; run_prims.
  - destruct (st_files s !! file_path) as [f|] eqn:Hf; run_prims.
    + assert (Hnew : forall s',
                st_trace s' = (st_trace s ++ [EvStage Publish]) ++ [EvHttpPut url file_path] ->
                In (EvHttpPut u path) (new_events s s') ->
                true = true /\ u = url /\ path = file_path /\ is_Some (Some f)).
      { intros s' Ht. erewrite new_events_app by (rewrite Ht, <- app_assoc; reflexivity).
        intros [H|[H|[]]]; [discriminate H|]. injection H as <- <-. eauto. }
      destruct (w_http_put w url f); run_prims; [|destruct url; run_prims];
        apply Hnew; reflexivity.
    + erewrite new_events_app by reflexivity. intros [H|[]]. discriminate H.
  - destruct (st_files s !! file_path) as [[b|v]|]; run_prims;
      (erewrite new_events_app by reflexivity); intros [H|[]]; discriminate H.
Qed.

Lemma upload_result_puts_only_to_the_destination_witness :
  truthy (PStr "https://bucket/out.mp4?X-Sig=abc?d") = true
  /\ PStr "https://bucket/out.mp4?X-Sig=abc?d" = PStr "https://bucket/out.mp4?X-Sig=abc?d"
  /\ "/work/upscaled.mp4" = "/work/upscaled.mp4"
  /\ is_Some (st_files state_with_video !! "/work/upscaled.mp4").
Proof.
  apply (upload_result_puts_only_to_the_destination world_ok "/work/upscaled.mp4"
           (PStr "https://bucket/out.mp4?X-Sig=abc?d") state_with_video
           (PStr "https://bucket/out.mp4?X-Sig=abc?d") "/work/upscaled.mp4").
  vm_compute. tauto.
Defined.

Lemma py_split_no_separator c u : has_char c u = false -> py_split c u = [u].
Proof.
  induction u as [|a u IH]; [reflexivity|]. cbn [has_char py_split].
  destruct (Ascii.eqb a c); [discriminate|]. cbn [orb]. intros H. now rewrite IH.
Qed.

(** X23. A destination without a query string comes back as it is: when the
    URL contains no '?', a successful upload returns the URL itself. *)
Theorem upload_result_keeps_plain_url w file_path f s u :
  st_files s !! file_path = Some f ->
  u <> "" ->
  has_char "?" u = false ->
  w_http_put w (PStr u) f = None ->
  (upload_result w file_path (PStr u) s).1 = Ret u.
Proof.
  intros Hf Hu Hq Hput. unfold upload_result. cbn [truthy].
  apply String.eqb_neq in Hu. rewrite Hu. cbn [negb].
  run_prims. rewrite Hf. run_prims. rewrite Hput. run_prims.
  now rewrite (py_split_no_separator _ _ Hq).
Qed.

Lemma upload_result_keeps_plain_url_witness :
  (upload_result world_ok "/work/upscaled.mp4" (PStr "https://bucket/out.mp4")
     state_with_video).1 = Ret "https://bucket/out.mp4".
Proof.
  apply (upload_result_keeps_plain_url world_ok "/work/upscaled.mp4"
           (Mp4v sample_video) state_with_video "https://bucket/out.mp4").
  - vm_compute. reflexivity.
  - discriminate.
  - reflexivity.
  - reflexivity.
Defined.

(** ** Audio enhancement: the success path *)

(** X24. When the audio filter exits with status 0, [enhance_audio] returns
    its output path, and the handler publishes that enhanced artifact: the
    artifact handed to Publish is the audio-enhanced file, not the one the
    stage was given. *)
Theorem audio_success_is_published w job ji url s c1 s1 err writes :
  accepted job ji url ->
  truthy (job_audio_enhance ji) = true ->
  run_chain (before_audio w ji (w_mkdtemp w) url) "" (acquire w s) = (Ret c1, s1) ->
  w_subprocess w (audio_cmd c1 (audio_path_of (w_mkdtemp w))) = (Exited 0 err, writes) ->
  (enhance_audio w c1 (audio_path_of (w_mkdtemp w)) s1).1
    = Ret (audio_path_of (w_mkdtemp w))
  /\ handler w job s =
       (finish w ji
          (upload_result w (audio_path_of (w_mkdtemp w)) (job_upload_url ji)
             (enhance_audio w c1 (audio_path_of (w_mkdtemp w)) s1).2).1,
        rmtree (w_mkdtemp w)
          (upload_result w (audio_path_of (w_mkdtemp w)) (job_upload_url ji)
             (enhance_audio w c1 (audio_path_of (w_mkdtemp w)) s1).2).2).
Proof.
  intros Hacc Haudio Hpre Hsub.
  assert (Hstage : (enhance_audio w c1 (audio_path_of (w_mkdtemp w)) s1).1
                   = Ret (audio_path_of (w_mkdtemp w))).
  { unfold enhance_audio. run_prims. now rewrite Hsub. }
  split; [exact Hstage|].
  destruct (enhance_audio w c1 (audio_path_of (w_mkdtemp w)) s1) as [r s2] eqn:Haud.
  cbn [fst snd] in *. subst r.
  exact (handler_after_audio _ _ _ _ _ _ _ _ _ Hacc Haudio Hpre Haud).
Qed.

Lemma audio_success_is_published_witness :
  (enhance_audio world_ok "/tmp/tmpjob/restored.mp4" "/tmp/tmpjob/audio_enhanced.mp4"
     (run_chain (before_audio world_ok input_default "/tmp/tmpjob" "https://x/test.mp4")
        "" (acquire world_ok empty_state)).2).1
    = Ret "/tmp/tmpjob/audio_enhanced.mp4"
  /\ handler world_ok (job_of input_default) empty_state =
       (finish world_ok input_default
          (upload_result world_ok "/tmp/tmpjob/audio_enhanced.mp4" (PStr "")
             (enhance_audio world_ok "/tmp/tmpjob/restored.mp4"
                "/tmp/tmpjob/audio_enhanced.mp4"
                (run_chain
                   (before_audio world_ok input_default "/tmp/tmpjob" "https://x/test.mp4")
                   "" (acquire world_ok empty_state)).2).2).1,
        rmtree "/tmp/tmpjob"
          (upload_result world_ok "/tmp/tmpjob/audio_enhanced.mp4" (PStr "")
             (enhance_audio world_ok "/tmp/tmpjob/restored.mp4"
                "/tmp/tmpjob/audio_enhanced.mp4"
                (run_chain
                   (before_audio world_ok input_default "/tmp/tmpjob" "https://x/test.mp4")
                   "" (acquire world_ok empty_state)).2).2).2).
Proof.
  apply (audio_success_is_published world_ok (job_of input_default) input_default
           "https://x/test.mp4" empty_state "/tmp/tmpjob/restored.mp4"
           (run_chain (before_audio world_ok input_default "/tmp/tmpjob" "https://x/test.mp4")
              "" (acquire world_ok empty_state)).2
           ""
           [("/tmp/tmpjob/audio_enhanced.mp4",
             Bytes [Byte.x00; Byte.x01; Byte.x02; Byte.x03])]).
  - split; [|split]; [vm_compute; reflexivity | vm_compute; reflexivity | discriminate].
  - reflexivity.
  - vm_compute. reflexivity.
  - reflexivity.
Defined.

(** ** Artifact paths *)

Lemma string_app_inj d a b : d +:+ a = d +:+ b -> a = b.
Proof.
  induction d as [|c d IH]; [now intros H|].
  change (String c d +:+ a) with (String c (d +:+ a)).
  change (String c d +:+ b) with (String c (d +:+ b)).
  intros [= H]. now apply IH.
Qed.

Lemma os_path_join_inj d a b :
  starts_with_sep a = false -> starts_with_sep b = false ->
  os_path_join d a = os_path_join d b -> a = b.
Proof.
  unfold os_path_join. intros -> ->.
  destruct (String.eqb d "" || ends_with_sep d); intros H.
  - exact (string_app_inj _ _ _ H).
  - apply string_app_inj in H.
    change ("/" +:+ a) with (String "/" a) in H.
    change ("/" +:+ b) with (String "/" b) in H.
    now injection H.
Qed.

Lemma input_name_relative ext : starts_with_sep ("input" +:+ ext) = false.
Proof. reflexivity. Qed.

(** X25. In any workspace and for any URL, the four artifact paths of a job
    (downloaded input, upscaled, restored, audio-enhanced) are pairwise
    different and all lie under the workspace directory: no stage writes over
    the file it reads, and every artifact is within reach of the cleanup. *)
Theorem artifact_paths_distinct_and_inside w tmpdir url :
  NoDup (artifact_paths w tmpdir url)
  /\ Forall (fun p => is_under tmpdir p = true) (artifact_paths w tmpdir url).
Proof.
  unfold artifact_paths, input_path_of, upscaled_path_of, restored_path_of, audio_path_of.
  set (ext := if String.eqb (w_path_suffix w url) "" then ".mp4" else w_path_suffix w url).
  assert (Hneq : forall a b, starts_with_sep a = false -> starts_with_sep b = false ->
                             String.get 0 a <> String.get 0 b ->
                             os_path_join tmpdir a <> os_path_join tmpdir b).
  { intros a b Ha Hb Hab H. apply Hab. now rewrite (os_path_join_inj _ _ _ Ha Hb H). }
  split.
  - repeat (apply NoDup_cons; split); try apply NoDup_nil_2;
      rewrite ?elem_of_cons, ?elem_of_nil; intuition;
      match goal with
      | H : os_path_join _ _ = os_path_join _ _ |- _ =>
          revert H; apply Hneq; [reflexivity | reflexivity | discriminate]
      end.
  - repeat (apply Forall_cons_2 || apply Forall_nil_2);
      apply joined_is_under; reflexivity.
Qed.

(** ** The location reported without an upload destination *)

Lemma download_file_returns w url dest s a s' :
  download_file w url dest s = (Ret a, s') -> a = dest.
Proof.
  unfold download_file. run_prims.
  destruct (w_http_get w url) as [[chunks [e|]]|e]; run_prims;
    try (destruct (w_open_error w dest); run_prims); try discriminate.
  now intros [= <- _].
Qed.

Lemma enhance_audio_returns w i o s a s' :
  enhance_audio w i o s = (Ret a, s') -> a = i \/ a = o.
Proof.
  unfold enhance_audio. run_prims.
  destruct (w_subprocess w _) as [[rc err| |e] writes]; run_prims; try discriminate.
  destruct (negb (rc =? 0)); run_prims; intros [= <- _]; auto.
Qed.

(** Every stage before Publish hands on a path inside the workspace. *)
Lemma current_stays_inside w ji tmpdir url :
  forall c s a s',
    run_chain (before_audio w ji tmpdir url
               ++ (if truthy (job_audio_enhance ji) then [stage_audio w tmpdir] else []))
      c s = (Ret a, s') ->
    is_under tmpdir a = true.
Proof.
  intros c s a s'. unfold before_audio.
  assert (Hup : is_under tmpdir (upscaled_path_of tmpdir) = true)
    by (apply joined_is_under; reflexivity).
  assert (Hre : is_under tmpdir (restored_path_of tmpdir) = true)
    by (apply joined_is_under; reflexivity).
  assert (Hau : is_under tmpdir (audio_path_of tmpdir) = true)
    by (apply joined_is_under; reflexivity).
  destruct (truthy (job_face_restore ji)); destruct (truthy (job_audio_enhance ji));
    cbn [app run_chain stage_fetch stage_upscale stage_face stage_audio];
    unfold mbind, M_bind, mret, M_ret;
    destruct (download_file w url _ s) as [[x0|e0] s0]; try discriminate;
    destruct (run_realesrgan w _ _ _ _ s0) as [[x1|e1] s1]; try discriminate.
  - destruct (restore_faces_video w _ _ s1) as [[x2|e2] s2]; try discriminate.
    destruct (enhance_audio w _ _ s2) as [[x3|e3] s3] eqn:Ha; try discriminate.
    intros [= <- _]. now destruct (enhance_audio_returns _ _ _ _ _ _ Ha) as [->| ->].
  - destruct (restore_faces_video w _ _ s1) as [[x2|e2] s2]; try discriminate.
    now intros [= <- _].
  - destruct (enhance_audio w _ _ s1) as [[x3|e3] s3] eqn:Ha; try discriminate.
    intros [= <- _]. now destruct (enhance_audio_returns _ _ _ _ _ _ Ha) as [->| ->].
  - now intros [= <- _].
Qed.

(** X26. Without an upload destination the job succeeds with a [file://]
    location that is already gone: the path it names lies inside the
    workspace, and by the time the handler returns no file exists there. *)
Theorem local_result_names_a_removed_file w job ji url s r :
  accepted job ji url ->
  truthy (job_upload_url ji) = false ->
  (handler w job s).1 = Ret r ->
  exists (p : string) (size : N),
    In ("video_url", RStr ("file://" +:+ p +:+ " (" +:+ pretty size +:+ " bytes)")) r
    /\ is_under (w_mkdtemp w) p = true
    /\ st_files (handler w job s).2 !! p = None.
Proof.
  intros Hacc Hurl. rewrite (handler_pipeline _ _ _ _ _ Hacc). cbn [fst snd].
  unfold pipeline. rewrite app_assoc, run_chain_app. unfold mbind at 1. unfold M_bind.
  destruct (run_chain (before_audio w ji (w_mkdtemp w) url ++ _) "" (acquire w s))
    as [[p|e] s1] eqn:Hpre; [|discriminate].
  pose proof (current_stays_inside _ _ _ _ _ _ _ _ Hpre) as Hin.
  cbn [run_chain stage_publish]. unfold upload_result. rewrite Hurl. run_prims.
  destruct (st_files s1 !! p) as [[b|v]|]; run_prims; try discriminate;
    intros [= <-]; eexists p, _;
    (split; [left; reflexivity | split; [exact Hin|]]);
    now apply rmtree_gone.
Qed.

Lemma local_result_names_a_removed_file_witness :
  exists (p : string) (size : N),
    In ("video_url", RStr ("file://" +:+ p +:+ " (" +:+ pretty size +:+ " bytes)"))
       [("video_url", RStr "file:///tmp/tmpjob/upscaled.mp4 (3000 bytes)");
        ("duration_secs", RFloat (12 # 10));
        ("scale", RVal (PInt 3));
        ("face_restore", RVal (PBool false));
        ("audio_enhance", RVal (PBool false))]
    /\ is_under "/tmp/tmpjob" p = true
    /\ st_files (handler world_ok (job_of input_scale3) empty_state).2 !! p = None.
Proof.
  apply (local_result_names_a_removed_file world_ok (job_of input_scale3) input_scale3
           "https://x/test.mp4" empty_state).
  - split; [|split]; [vm_compute; reflexivity | vm_compute; reflexivity | discriminate].
  - reflexivity.
  - vm_compute. reflexivity.
Defined.
